(** * A tool registry and dispatcher: [composite_demo/tool_registry.py]

    The module keeps two process-wide dictionaries, [_TOOL_HOOKS] (tool name
    to callable) and [_TOOL_DESCRIPTIONS] (tool name to descriptor), and
    offers three operations on them: [register_tool], [dispatch_tool] and
    [get_tools].  This development embeds the three operations over an
    explicit object heap and proves the properties stated for them. *)

From Stdlib Require Import ZArith Ascii DecimalString.
From stdpp Require Import base tactics option list strings gmap.

Set Default Proof Using "Type".
Set Warnings "-register-all".

(** * Python strings

    A [str] is modelled as a Rocq [string] whose characters are the code
    points below 256. *)

Module PyStr.

Definition code (c : ascii) : nat := nat_of_ascii c.

(** [str.isspace] on one character: the characters that [str.strip]
    removes.  Below 256 these are TAB..CR, FS..US, the space, NEL and the
    no-break space. *)
Definition isspace (c : ascii) : bool :=
  let n := code c in
  ((9 <=? n) && (n <=? 13)) || ((28 <=? n) && (n <=? 32))
  || (n =? 133) || (n =? 160).

Fixpoint lstrip (s : string) : string :=
  match s with
  | EmptyString => EmptyString
  | String c s' => if isspace c then lstrip s' else s
  end.

Fixpoint rstrip (s : string) : string :=
  match s with
  | EmptyString => EmptyString
  | String c s' =>
      match rstrip s' with
      | EmptyString => if isspace c then EmptyString else String c EmptyString
      | r => String c r
      end
  end.

(** [s.strip()] *)
Definition strip (s : string) : string := rstrip (lstrip s).

(** Every character of [s] is whitespace. *)
Fixpoint blank (s : string) : bool :=
  match s with
  | EmptyString => true
  | String c s' => isspace c && blank s'
  end.

Definition first (s : string) : option ascii :=
  match s with EmptyString => None | String c _ => Some c end.

Fixpoint last (s : string) : option ascii :=
  match s with
  | EmptyString => None
  | String c EmptyString => Some c
  | String _ s' => last s'
  end.

Fixpoint contains (c : ascii) (s : string) : bool :=
  match s with
  | EmptyString => false
  | String d s' => Ascii.eqb c d || contains c s'
  end.

Fixpoint join (sep : string) (l : list string) : string :=
  match l with
  | [] => ""
  | [x] => x
  | x :: l' => x +:+ sep +:+ join sep l'
  end.

(** [str(n)] for an [int]. *)
Definition of_Z (z : Z) : string := NilZero.string_of_int (Z.to_int z).

Definition squote : ascii := "'"%char.
Definition dquote : ascii := ascii_of_nat 34.
Definition backslash : ascii := "\"%char.

Definition hexdigit (n : nat) : ascii :=
  if n <? 10 then ascii_of_nat (48 + n) else ascii_of_nat (87 + n).

(** [str.isprintable] on one character below 256. *)
Definition isprintable (c : ascii) : bool :=
  let n := code c in
  ((32 <=? n) && (n <? 127)) || ((161 <=? n) && negb (n =? 173)).

Definition escape (quote c : ascii) : string :=
  let n := code c in
  if Ascii.eqb c quote || Ascii.eqb c backslash then String backslash (String c "")
  else if n =? 9 then String backslash "t"
  else if n =? 10 then String backslash "n"
  else if n =? 13 then String backslash "r"
  else if isprintable c then String c ""
  else String backslash (String "x" (String (hexdigit (n / 16)) (String (hexdigit (n mod 16)) ""))).

Fixpoint escape_all (quote : ascii) (s : string) : string :=
  match s with
  | EmptyString => EmptyString
  | String c s' => escape quote c +:+ escape_all quote s'
  end.

(** [repr(s)] for a [str]: single quotes unless the text holds a single
    quote and no double quote. *)
Definition repr (s : string) : string :=
  let quote := if contains squote s && negb (contains dquote s) then dquote else squote in
  String quote (escape_all quote s) +:+ String quote "".

End PyStr.

(** * Exceptions and results *)

Record PyExc : Type := mkExc { exc_class : string; exc_msg : string }.

Definition TypeError (msg : string) : PyExc := mkExc "TypeError" msg.
Definition ValueError (msg : string) : PyExc := mkExc "ValueError" msg.
Definition AttributeError (msg : string) : PyExc := mkExc "AttributeError" msg.
Definition KeyError (msg : string) : PyExc := mkExc "KeyError" msg.
Definition RecursionError (msg : string) : PyExc := mkExc "RecursionError" msg.
Definition SystemError (msg : string) : PyExc := mkExc "SystemError" msg.

(** The outcome of evaluating Python code: a value, or a raised exception. *)
Inductive Result (A : Type) : Type :=
| Ok (a : A)
| Raise (e : PyExc).
Arguments Ok {A} a.
Arguments Raise {A} e.

(** [f] on the value of an outcome; an exception passes through. *)
Definition result_map {A B : Type} (f : A -> B) (r : Result A) : Result B :=
  match r with
  | Ok a => Ok (f a)
  | Raise e => Raise e
  end.

(** The outcomes of [f] on the items of a list, up to the first that raises. *)
Fixpoint map_results {A B : Type} (f : A -> Result B) (l : list A) : Result (list B) :=
  match l with
  | [] => Ok []
  | a :: l' =>
      match f a with
      | Raise e => Raise e
      | Ok b =>
          match map_results f l' with
          | Raise e => Raise e
          | Ok bs => Ok (b :: bs)
          end
      end
  end.

(** The interpreter's default recursion limit. *)
Definition recursion_limit : nat := 1000.

(** * Python values

    The objects that cross the registry boundary: annotation metadata, the
    arguments handed to a tool and the value a tool returns.  Plain data
    ([None], [bool], [int], [str], [tuple], [list], and [dict] with [str]
    keys) is held by value.  An instance of any other class is given by
    the name of its class and by what its [__str__] and its [__repr__]
    return or raise. *)

Inductive PyVal : Type :=
| VNone
| VBool (b : bool)
| VInt (z : Z)
| VStr (s : string)
| VTuple (items : list PyVal)
| VList (items : list PyVal)
| VDict (items : list (string * PyVal))
| VObject (cls : string) (str_ repr_ : Result string).

(** The text of a [tuple], a [list] and a [dict] from the texts of their
    items. *)
Definition tuple_text (rs : list string) : string :=
  match rs with
  | [] => "()"
  | [r] => "(" +:+ r +:+ ",)"
  | _ => "(" +:+ PyStr.join ", " rs +:+ ")"
  end.

Definition list_text (rs : list string) : string :=
  "[" +:+ PyStr.join ", " rs +:+ "]".

Definition dict_text (ks rs : list string) : string :=
  "{" +:+ PyStr.join ", " (zip_with (fun k r => PyStr.repr k +:+ ": " +:+ r) ks rs) +:+ "}".

Definition repr_too_deep : PyExc :=
  RecursionError "maximum recursion depth exceeded while getting the repr of an object".

(** [repr(v)], following containers at most [n] deep: the items are
    rendered in order and the first exception raised on the way is the
    outcome. *)
Fixpoint py_repr_at (n : nat) (v : PyVal) {struct n} : Result string :=
  match v with
  | VNone => Ok "None"
  | VBool true => Ok "True"
  | VBool false => Ok "False"
  | VInt z => Ok (PyStr.of_Z z)
  | VStr s => Ok (PyStr.repr s)
  | VObject _ _ repr_ => repr_
  | VTuple xs =>
      match n with
      | 0 => Raise repr_too_deep
      | S n' => result_map tuple_text (map_results (py_repr_at n') xs)
      end
  | VList xs =>
      match n with
      | 0 => Raise repr_too_deep
      | S n' => result_map list_text (map_results (py_repr_at n') xs)
      end
  | VDict kvs =>
      match n with
      | 0 => Raise repr_too_deep
      | S n' => result_map (dict_text kvs.*1) (map_results (py_repr_at n') kvs.*2)
      end
  end.

(** [repr(v)].  How deep the interpreter follows nested containers before
    it raises [RecursionError] depends on the frames already on its stack;
    the bound here is the recursion limit itself. *)
Definition py_repr (v : PyVal) : Result string := py_repr_at recursion_limit v.

(** [str(v)]: a [str] is returned as it is, an instance of another class
    answers with its [__str__], and plain data has the text of [repr]. *)
Definition py_str (v : PyVal) : Result string :=
  match v with
  | VStr s => Ok s
  | VObject _ str_ _ => str_
  | _ => py_repr v
  end.

(** * Dictionaries

    A [dict] with [str] keys, in insertion order. *)

Section Dict.
Context {V : Type}.

(** [d.get(k)] *)
Fixpoint dict_get (k : string) (d : list (string * V)) : option V :=
  match d with
  | [] => None
  | (k', v) :: d' => if String.eqb k k' then Some v else dict_get k d'
  end.

(** [k in d] *)
Definition dict_contains (k : string) (d : list (string * V)) : bool :=
  match dict_get k d with Some _ => true | None => false end.

(** [d[k] = v]: an existing key keeps its place, a new key goes last. *)
Fixpoint dict_set (k : string) (v : V) (d : list (string * V)) : list (string * V) :=
  match d with
  | [] => [(k, v)]
  | (k', v') :: d' =>
      if String.eqb k k' then (k, v) :: d' else (k', v') :: dict_set k v d'
  end.

(** [list(d.keys())] *)
Definition dict_keys (d : list (string * V)) : list string := d.*1.
End Dict.

(** * Declared types and annotations *)

(** An object standing where a parameter's type is declared. *)
Inductive PyType : Type :=
| TClass (module name qualname : string)
    (** a class, with its [__module__], [__name__] and [__qualname__] *)
| TGenericAlias (origin : PyType) (args : list PyType)
    (** a [types.GenericAlias] such as [tuple[int, int]] *)
| TOther (cls repr : string) (name : option string).
    (** any other object (an instance of class [cls]), with its rendering
        and its [__name__] attribute when it has one *)

(** [str(t)] for a generic alias, and the rendering of its parts: a class
    is shown by its qualified name, after its module unless that is
    [builtins]. *)
Fixpoint type_repr (t : PyType) : string :=
  match t with
  | TClass m _ q => if String.eqb m "builtins" then q else m +:+ "." +:+ q
  | TGenericAlias o [] => type_repr o +:+ "[()]"
  | TGenericAlias o args => type_repr o +:+ "[" +:+ PyStr.join ", " (map type_repr args) +:+ "]"
  | TOther _ r _ => r
  end.

(** [isinstance(t, GenericAlias)] *)
Definition is_GenericAlias (t : PyType) : bool :=
  match t with TGenericAlias _ _ => true | _ => false end.

(** [t.__name__]; a generic alias forwards the attribute to its origin. *)
Fixpoint getattr_name (t : PyType) : Result string :=
  match t with
  | TClass _ n _ => Ok n
  | TGenericAlias o _ => getattr_name o
  | TOther _ _ (Some n) => Ok n
  | TOther cls _ None =>
      Raise (AttributeError ("'" +:+ cls +:+ "' object has no attribute '__name__'"))
  end.

(** [param.annotation] *)
Inductive Annotation : Type :=
| Empty
    (** [inspect.Parameter.empty] *)
| Plain (t : PyType)
    (** an annotation whose [get_origin] is not [Annotated] *)
| Annotated (origin : PyType) (metadata : list PyVal).
    (** [Annotated[origin, *metadata]] *)

(** [param.kind] *)
Inductive ParamKind : Type :=
| POSITIONAL_ONLY
| POSITIONAL_OR_KEYWORD
| VAR_POSITIONAL
| KEYWORD_ONLY
| VAR_KEYWORD.

(** [inspect.Parameter] *)
Record Param : Type := mkParam {
  kind : ParamKind;
  annotation : Annotation;
  default : option PyVal
}.

(** * Callables *)

Record PyFunc : Type := mkFunc {
  fn_name : string;                            (** [func.__name__] *)
  fn_qualname : string;                        (** [func.__qualname__] *)
  fn_doc : option string;                      (** [inspect.getdoc(func)] *)
  fn_params : list (string * Param);       (** [inspect.signature(func).parameters] *)
  fn_body : list (string * PyVal) -> Result PyVal
    (** the body, run on the bound parameters: it returns a value or
        raises, and does not touch the registry *)
}.

(** [isinstance(v, str)] and [isinstance(v, bool)] *)
Definition isinstance_str (v : PyVal) : bool :=
  match v with VStr _ => true | _ => false end.
Definition isinstance_bool (v : PyVal) : bool :=
  match v with VBool _ => true | _ => false end.

(** ** Binding keyword arguments

    [dispatch_tool] calls a tool with keyword arguments only.  A keyword
    fills the parameter of its name when that is positional-or-keyword or
    keyword-only; the keywords that fill no parameter go to the [**kwargs]
    parameter when there is one and are refused otherwise; a [*args]
    parameter gets the empty tuple. *)

Definition takes_keyword (p : Param) : bool :=
  match kind p with
  | POSITIONAL_OR_KEYWORD | KEYWORD_ONLY => true
  | _ => false
  end.

Definition is_positional (p : Param) : bool :=
  match kind p with
  | POSITIONAL_ONLY | POSITIONAL_OR_KEYWORD => true
  | _ => false
  end.

Definition is_positional_only (p : Param) : bool :=
  match kind p with POSITIONAL_ONLY => true | _ => false end.

Definition is_keyword_only (p : Param) : bool :=
  match kind p with KEYWORD_ONLY => true | _ => false end.

Definition is_var_keyword (p : Param) : bool :=
  match kind p with VAR_KEYWORD => true | _ => false end.

(** The parameters of [f] that a keyword can fill. *)
Definition named_parameters (f : PyFunc) : list (string * Param) :=
  filter (fun p => takes_keyword p.2) (fn_params f).

(** [f] has a [**kwargs] parameter. *)
Definition has_var_keyword (f : PyFunc) : bool :=
  existsb (fun p => is_var_keyword p.2) (fn_params f).

(** The keywords of [kwargs] that fill no parameter of [f]. *)
Definition extra_keywords (f : PyFunc) (kwargs : list (string * PyVal))
  : list (string * PyVal) :=
  filter (fun kv => negb (dict_contains kv.1 (named_parameters f))) kwargs.

(** The first keyword of [kwargs] that fills no parameter of [f]. *)
Definition unexpected_keyword (f : PyFunc) (kwargs : list (string * PyVal)) : option string :=
  fst <$> List.find (fun kv => negb (dict_contains kv.1 (named_parameters f))) kwargs.

(** The positional-only parameters of [f] that [kwargs] names. *)
Definition positional_only_passed (f : PyFunc) (kwargs : list (string * PyVal)) : list string :=
  (filter (fun p => is_positional_only p.2 && dict_contains p.1 kwargs) (fn_params f)).*1.

(** The parameter [p] is left without a value: no keyword fills it and it
    has no default. *)
Definition unfilled (kwargs : list (string * PyVal)) (p : string * Param) : bool :=
  negb (takes_keyword p.2 && dict_contains p.1 kwargs)
  && negb (bool_decide (is_Some (default p.2))).

(** The positional and the keyword-only parameters of [f] that a call with
    keywords [kwargs] leaves without a value. *)
Definition missing_positional (f : PyFunc) (kwargs : list (string * PyVal)) : list string :=
  (filter (fun p => is_positional p.2 && unfilled kwargs p) (fn_params f)).*1.

Definition missing_keyword_only (f : PyFunc) (kwargs : list (string * PyVal)) : list string :=
  (filter (fun p => is_keyword_only p.2 && unfilled kwargs p) (fn_params f)).*1.

(** The locals of the call, in the order of the parameters. *)
Definition bind_arguments (f : PyFunc) (kwargs : list (string * PyVal)) : list (string * PyVal) :=
  omap (fun p =>
          match kind p.2 with
          | VAR_POSITIONAL => Some (p.1, VTuple [])
          | VAR_KEYWORD => Some (p.1, VDict (extra_keywords f kwargs))
          | POSITIONAL_ONLY => (fun d => (p.1, d)) <$> default p.2
          | POSITIONAL_OR_KEYWORD | KEYWORD_ONLY =>
              match dict_get p.1 kwargs with
              | Some v => Some (p.1, v)
              | None => (fun d => (p.1, d)) <$> default p.2
              end
          end) (fn_params f).

Definition quoted (s : string) : string := "'" +:+ s +:+ "'".

Fixpoint name_list (names : list string) : string :=
  match names with
  | [] => ""
  | [a] => quoted a
  | [a; b] => quoted a +:+ " and " +:+ quoted b
  | a :: rest =>
      match rest with
      | [b; c] => quoted a +:+ ", " +:+ quoted b +:+ ", and " +:+ quoted c
      | _ => quoted a +:+ ", " +:+ name_list rest
      end
  end.

(** The [TypeError] for the required parameters [names] of one sort that
    are left without a value. *)
Definition missing_error (f : PyFunc) (sort : string) (names : list string) : PyExc :=
  TypeError (fn_qualname f +:+ "() missing " +:+ PyStr.of_Z (Z.of_nat (length names))
             +:+ " required " +:+ sort +:+ " argument"
             +:+ (if length names =? 1 then "" else "s") +:+ ": "
             +:+ name_list names).

(** The exception that binding [kwargs] to the parameters of [f] raises, if
    any.  Without a [**kwargs] parameter the first keyword that fills no
    parameter is refused, with the positional-only names among the
    keywords when there are some; then the positional parameters, and then
    the keyword-only ones, must all have a value. *)
Definition bind_error (f : PyFunc) (kwargs : list (string * PyVal)) : option PyExc :=
  match (if has_var_keyword f then None else unexpected_keyword f kwargs) with
  | Some k =>
      Some (match positional_only_passed f kwargs with
            | [] =>
                TypeError (fn_qualname f +:+ "() got an unexpected keyword argument "
                           +:+ quoted k)
            | names =>
                TypeError (fn_qualname f +:+ "() got some positional-only arguments passed"
                           +:+ " as keyword arguments: " +:+ quoted (PyStr.join ", " names))
            end)
  | None =>
      match missing_positional f kwargs with
      | [] =>
          match missing_keyword_only f kwargs with
          | [] => None
          | names => Some (missing_error f "keyword-only" names)
          end
      | names => Some (missing_error f "positional" names)
      end
  end.

(** Calling [f] with the entries of [kwargs] as keyword arguments. *)
Definition py_call (f : PyFunc) (kwargs : list (string * PyVal)) : Result PyVal :=
  match bind_error f kwargs with
  | Some e => Raise e
  | None => fn_body f (bind_arguments f kwargs)
  end.

(** * The object heap

    Descriptors are built from mutable [dict] and [list] objects, which are
    shared by reference.  A heap cell holds an object, or nothing while the
    object is reserved and its contents are not yet stored. *)

(** Objects are identified by their position in the heap. *)
Abbreviation loc := nat (only parsing).

Inductive Slot : Type :=
| Imm (v : PyVal)      (** an immutable value, held directly *)
| Ref (l : loc).       (** a reference to a heap object *)

Inductive Obj : Type :=
| ODict (items : list (string * Slot))
| OList (items : list Slot).

(** The object stored at [l], if any. *)
Definition deref (h : list (option Obj)) (l : loc) : option Obj :=
  match h !! l with Some (Some o) => Some o | _ => None end.

(** The slots an object holds. *)
Definition children (o : Obj) : list Slot :=
  match o with
  | ODict kvs => kvs.*2
  | OList xs => xs
  end.

(** The object [o] with its slots replaced, in order, by [ys]. *)
Definition rebuild (o : Obj) (ys : list Slot) : Obj :=
  match o with
  | ODict kvs => ODict (zip kvs.*1 ys)
  | OList _ => OList ys
  end.

(** * The process state

    The heap, the two module-level dictionaries, and what has been
    printed: one text for each call of [print], which may hold several
    lines. *)

Record World : Type := mkWorld {
  heap : list (option Obj);
  _TOOL_HOOKS : list (string * PyFunc);
  _TOOL_DESCRIPTIONS : list (string * Slot);
  stdout : list string
}.

(** The state at import time, before the first registration. *)
Definition world0 : World := mkWorld [] [] [] [].

Definition set_heap (h : list (option Obj)) (w : World) : World :=
  mkWorld h (_TOOL_HOOKS w) (_TOOL_DESCRIPTIONS w) (stdout w).

(** ** Stateful computations that may raise *)

Definition M (A : Type) : Type := World -> Result A * World.

Definition ret {A} (a : A) : M A := fun w => (Ok a, w).

Definition raise {A} (e : PyExc) : M A := fun w => (Raise e, w).

Definition lift {A} (r : Result A) : M A := fun w => (r, w).

Definition bind {A B} (m : M A) (k : A -> M B) : M B :=
  fun w =>
    match m w with
    | (Ok a, w') => k a w'
    | (Raise e, w') => (Raise e, w')
    end.

(** [try: m  except: handler] with a bare [except]. *)
Definition try_except {A} (m : M A) (handler : PyExc -> M A) : M A :=
  fun w =>
    match m w with
    | (Ok a, w') => (Ok a, w')
    | (Raise e, w') => handler e w'
    end.

Notation "'let*' x ':=' m 'in' k" := (bind m (fun x => k))
  (at level 10, x pattern, m at level 100, k at level 200).
Notation "m ';;' k" := (bind m (fun _ => k))
  (at level 100, k at level 200, right associativity).

(** [for a in l: body(a)] *)
Fixpoint for_each {A} (l : list A) (body : A -> M unit) : M unit :=
  match l with
  | [] => ret tt
  | a :: l' => body a ;; for_each l' body
  end.

(** Allocation of a new object. *)
Definition new (o : Obj) : M loc :=
  fun w => (Ok (length (heap w)), set_heap (heap w ++ [Some o]) w).

(** [lst.append(x)] on the list object at [l]. *)
Definition list_append (l : loc) (x : Slot) : M unit :=
  fun w =>
    match deref (heap w) l with
    | Some (OList xs) => (Ok tt, set_heap (<[l := Some (OList (xs ++ [x]))]> (heap w)) w)
    | _ => (Raise (AttributeError "object has no attribute 'append'"), w)
    end.

(** [print(s)] *)
Definition print (s : string) : M unit :=
  fun w => (Ok tt, mkWorld (heap w) (_TOOL_HOOKS w) (_TOOL_DESCRIPTIONS w) (stdout w ++ [s])).

(** [_TOOL_HOOKS[k] = f] and [_TOOL_DESCRIPTIONS[k] = x] *)
Definition hooks_setitem (k : string) (f : PyFunc) : M unit :=
  fun w => (Ok tt, mkWorld (heap w) (dict_set k f (_TOOL_HOOKS w)) (_TOOL_DESCRIPTIONS w) (stdout w)).
Definition descriptions_setitem (k : string) (x : Slot) : M unit :=
  fun w => (Ok tt, mkWorld (heap w) (_TOOL_HOOKS w) (dict_set k x (_TOOL_DESCRIPTIONS w)) (stdout w)).

(** [k in _TOOL_HOOKS] and [_TOOL_HOOKS[k]] *)
Definition hooks_contains (k : string) : M bool :=
  fun w => (Ok (dict_contains k (_TOOL_HOOKS w)), w).
Definition hooks_getitem (k : string) : M PyFunc :=
  fun w =>
    match dict_get k (_TOOL_HOOKS w) with
    | Some f => (Ok f, w)
    | None => (Raise (KeyError (PyStr.repr k)), w)
    end.

(** [s.strip()] on the result of [inspect.getdoc]. *)
Definition getdoc_strip (doc : option string) : Result string :=
  match doc with
  | Some s => Ok (PyStr.strip s)
  | None => Raise (AttributeError "'NoneType' object has no attribute 'strip'")
  end.

(** [(a, b) = t] *)
Definition unpack2 (t : list PyVal) : Result (PyVal * PyVal) :=
  match t with
  | [a; b] => Ok (a, b)
  | _ =>
      if length t <? 2
      then Raise (ValueError ("not enough values to unpack (expected 2, got "
                              +:+ PyStr.of_Z (Z.of_nat (length t)) +:+ ")"))
      else Raise (ValueError "too many values to unpack (expected 2)")
  end.

(** [str(typ) if isinstance(typ, GenericAlias) else typ.__name__] *)
Definition render_type (typ : PyType) : Result string :=
  if is_GenericAlias typ then Ok (type_repr typ) else getattr_name typ.

(** ** The registration errors, as the source raises them *)

Definition MissingAnnotation (name : string) : PyExc :=
  TypeError ("Parameter `" +:+ name +:+ "` missing type annotation").
Definition MalformedAnnotation (name : string) : PyExc :=
  TypeError ("Annotation type for `" +:+ name +:+ "` must be typing.Annotated").
Definition InvalidDescription (name : string) : PyExc :=
  TypeError ("Description for `" +:+ name +:+ "` must be a string").
Definition InvalidRequiredFlag (name : string) : PyExc :=
  TypeError ("Required for `" +:+ name +:+ "` must be a bool").

(** * The registry operations *)

Section Registry.

(** [traceback.format_exc()] for the exception being handled, and
    [pprint.pformat] of a heap object: library renderings whose exact text
    the registry does not depend on. *)
Variable format_exc : PyExc -> string.
Variable pformat : list (option Obj) -> Slot -> string.

(** The body of the loop of [register_tool], for the parameter [name]. *)
Definition register_tool_param (tool_params : loc) (name : string) (param : Param) : M unit :=
  match annotation param with
  | Empty => raise (MissingAnnotation name)
  | Plain _ => raise (MalformedAnnotation name)
  | Annotated typ metadata =>
      let* (description, required) := lift (unpack2 metadata) in
      let* typ := lift (render_type typ) in
      if negb (isinstance_str description) then raise (InvalidDescription name)
      else if negb (isinstance_bool required) then raise (InvalidRequiredFlag name)
      else
        let* spec := new (ODict [("name", Imm (VStr name));
                                 ("description", Imm description);
                                 ("type", Imm (VStr typ));
                                 ("required", Imm required)]) in
        list_append tool_params (Ref spec)
  end.

Definition register_tool (func : PyFunc) : M PyFunc :=
  let tool_name := fn_name func in
  let* tool_description := lift (getdoc_strip (fn_doc func)) in
  let python_params := fn_params func in
  let* tool_params := new (OList []) in
  for_each python_params (fun '(name, param) => register_tool_param tool_params name param) ;;
  let* tool_def := new (ODict [("name", Imm (VStr tool_name));
                               ("description", Imm (VStr tool_description));
                               ("params", Ref tool_params)]) in
  (fun w => print ("[registered tool] " +:+ pformat (heap w) (Ref tool_def)) w) ;;
  hooks_setitem tool_name func ;;
  descriptions_setitem tool_name (Ref tool_def) ;;
  ret func.

Definition dispatch_tool (tool_name : string) (tool_params : list (string * PyVal)) : M string :=
  let* known := hooks_contains tool_name in
  if negb known
  then ret ("Tool `" +:+ tool_name +:+ "` not found. Please use a provided tool.")
  else
    let* tool_call := hooks_getitem tool_name in
    let* ret_ := try_except (lift (py_call tool_call tool_params))
                            (fun e => ret (VStr (format_exc e))) in
    lift (py_str ret_).

End Registry.

(** * Deep copies *)

(** [copy.deepcopy] on a sequence of slots, threading the memo and the heap. *)
Section CopySeq.
Variable copy : Slot -> gmap loc loc -> list (option Obj) ->
                Result (Slot * gmap loc loc * list (option Obj)).

Fixpoint copy_seq (xs : list Slot) (memo : gmap loc loc) (h : list (option Obj))
  : Result (list Slot * gmap loc loc * list (option Obj)) :=
  match xs with
  | [] => Ok ([], memo, h)
  | x :: xs' =>
      match copy x memo h with
      | Raise e => Raise e
      | Ok (y, memo1, h1) =>
          match copy_seq xs' memo1 h1 with
          | Raise e => Raise e
          | Ok (ys, memo2, h2) => Ok (y :: ys, memo2, h2)
          end
      end
  end.
End CopySeq.

(** [copy.deepcopy(x, memo)], nesting at most [n] deep.  Immutable values are
    returned as they are.  For a [dict] or [list] the memo is consulted
    first; otherwise the copy is reserved and entered in the memo, the
    children are copied in order, and the copy is stored. *)
Fixpoint deepcopy (n : nat) (x : Slot) (memo : gmap loc loc) (h : list (option Obj))
  : Result (Slot * gmap loc loc * list (option Obj)) :=
  match x with
  | Imm v => Ok (Imm v, memo, h)
  | Ref l =>
      match memo !! l with
      | Some y => Ok (Ref y, memo, h)
      | None =>
          match n with
          | 0 => Raise (RecursionError "maximum recursion depth exceeded")
          | S n' =>
              match deref h l with
              | None => Raise (SystemError "reference to no object")
              | Some o =>
                  let y := length h in
                  match copy_seq (deepcopy n') (children o) (<[l := y]> memo) (h ++ [None]) with
                  | Raise e => Raise e
                  | Ok (ys, memo', h') => Ok (Ref y, memo', <[y := Some (rebuild o ys)]> h')
                  end
              end
          end
      end
  end.

(** [get_tools]: [copy.deepcopy(_TOOL_DESCRIPTIONS)].  The registry
    dictionary itself is copied into a new heap object. *)
Definition get_tools : M Slot :=
  fun w =>
    let registry := ODict (_TOOL_DESCRIPTIONS w) in
    let y := length (heap w) in
    match copy_seq (deepcopy recursion_limit) (children registry) ∅ (heap w ++ [None]) with
    | Raise e => (Raise e, w)
    | Ok (ys, _, h') => (Ok (Ref y), set_heap (<[y := Some (rebuild registry ys)]> h') w)
    end.

(** * What a reference denotes *)

(** The data reached from a slot, as a tree. *)
Inductive Data : Type :=
| DImm (v : PyVal)
| DDict (items : list (string * Data))
| DList (items : list Data).

Definition assemble (o : Obj) (ds : list Data) : Data :=
  match o with
  | ODict kvs => DDict (zip kvs.*1 ds)
  | OList _ => DList ds
  end.

(** Reading the structure under [x], at most [n] objects deep. *)
Fixpoint read (n : nat) (h : list (option Obj)) (x : Slot) : option Data :=
  match x with
  | Imm v => Some (DImm v)
  | Ref l =>
      match n with
      | 0 => None
      | S n' =>
          match deref h l with
          | None => None
          | Some o => assemble o <$> mapM (read n' h) (children o)
          end
      end
  end.

(** The data of an object given by value. *)
Definition read_obj (n : nat) (h : list (option Obj)) (o : Obj) : option Data :=
  assemble o <$> mapM (read n h) (children o).

(** The catalog: the data of [_TOOL_DESCRIPTIONS].  A descriptor is three
    objects deep (descriptor, parameter list, parameter). *)
Definition catalog (w : World) : option Data :=
  read_obj 3 (heap w) (ODict (_TOOL_DESCRIPTIONS w)).

(** The objects reachable from a slot. *)
Inductive reach (h : list (option Obj)) : Slot -> loc -> Prop :=
| reach_here l : reach h (Ref l) l
| reach_child l o x l' :
    deref h l = Some o -> x ∈ children o -> reach h x l' -> reach h (Ref l) l'.

(** A heap [h'] keeps every object of [h]. *)
Definition extends (h h' : list (option Obj)) : Prop :=
  forall l o, deref h l = Some o -> deref h' l = Some o.

(** What the holder of a snapshot may do to the heap: overwrite an object at
    or above the frontier [b], or allocate. *)
Inductive mutation (b : loc) : list (option Obj) -> list (option Obj) -> Prop :=
| mutation_store h l o : b <= l -> mutation b h (<[l := Some o]> h)
| mutation_alloc h o : b <= length h -> mutation b h (h ++ [Some o]).

(** * Descriptors as records

    The descriptor that [register_tool] builds, computed without the heap.
    [describe] follows the checks of [register_tool] in their order;
    [register_tool_describe] relates the two. *)

Record ParamSpec : Type := mkParamSpec {
  ps_name : string;
  ps_description : string;
  ps_type : string;
  ps_required : bool
}.

Record ToolDescriptor : Type := mkToolDescriptor {
  td_name : string;
  td_description : string;
  td_params : list ParamSpec
}.

Definition param_spec (name : string) (param : Param) : Result ParamSpec :=
  match annotation param with
  | Empty => Raise (MissingAnnotation name)
  | Plain _ => Raise (MalformedAnnotation name)
  | Annotated typ metadata =>
      match unpack2 metadata with
      | Raise e => Raise e
      | Ok (description, required) =>
          match render_type typ with
          | Raise e => Raise e
          | Ok typ =>
              match description, required with
              | VStr d, VBool b => Ok (mkParamSpec name d typ b)
              | VStr _, _ => Raise (InvalidRequiredFlag name)
              | _, _ => Raise (InvalidDescription name)
              end
          end
      end
  end.

Fixpoint param_specs (params : list (string * Param)) : Result (list ParamSpec) :=
  match params with
  | [] => Ok []
  | (name, param) :: rest =>
      match param_spec name param with
      | Raise e => Raise e
      | Ok ps =>
          match param_specs rest with
          | Raise e => Raise e
          | Ok pss => Ok (ps :: pss)
          end
      end
  end.

Definition describe (func : PyFunc) : Result ToolDescriptor :=
  match getdoc_strip (fn_doc func) with
  | Raise e => Raise e
  | Ok tool_description =>
      match param_specs (fn_params func) with
      | Raise e => Raise e
      | Ok pss => Ok (mkToolDescriptor (fn_name func) tool_description pss)
      end
  end.

(** The heap object of a parameter entry, and its data. *)
Definition param_obj (ps : ParamSpec) : Obj :=
  ODict [("name", Imm (VStr (ps_name ps)));
         ("description", Imm (VStr (ps_description ps)));
         ("type", Imm (VStr (ps_type ps)));
         ("required", Imm (VBool (ps_required ps)))].

Definition param_data (ps : ParamSpec) : Data :=
  DDict [("name", DImm (VStr (ps_name ps)));
         ("description", DImm (VStr (ps_description ps)));
         ("type", DImm (VStr (ps_type ps)));
         ("required", DImm (VBool (ps_required ps)))].

Definition descriptor_data (td : ToolDescriptor) : Data :=
  DDict [("name", DImm (VStr (td_name td)));
         ("description", DImm (VStr (td_description td)));
         ("params", DList (param_data <$> td_params td))].

(** The state after a successful registration of [func] with descriptor
    [td]: the parameter list, the parameter entries and the descriptor are
    new objects, in this order. *)
Definition install (pformat : list (option Obj) -> Slot -> string)
    (func : PyFunc) (td : ToolDescriptor) (w : World) : World :=
  let tool_params := length (heap w) in
  let n := length (td_params td) in
  let tool_def := tool_params + 1 + n in
  let h' := heap w
            ++ Some (OList (Ref <$> seq (tool_params + 1) n))
            :: ((Some ∘ param_obj) <$> td_params td)
            ++ [Some (ODict [("name", Imm (VStr (td_name td)));
                             ("description", Imm (VStr (td_description td)));
                             ("params", Ref tool_params)])] in
  mkWorld h'
          (dict_set (td_name td) func (_TOOL_HOOKS w))
          (dict_set (td_name td) (Ref tool_def) (_TOOL_DESCRIPTIONS w))
          (stdout w ++ ["[registered tool] " +:+ pformat h' (Ref tool_def)]).

(** A parameter that passes every check of the registration loop. *)
Definition well_annotated (param : Param) : Prop :=
  exists typ d b t,
    annotation param = Annotated typ [VStr d; VBool b] /\ render_type typ = Ok t.

(** [register_tool func] raises [e] in state [w] and leaves both mappings as
    they were. *)
Definition rejects (pformat : list (option Obj) -> Slot -> string)
    (func : PyFunc) (w : World) (e : PyExc) : Prop :=
  exists w',
    register_tool pformat func w = (Raise e, w')
    /\ _TOOL_HOOKS w' = _TOOL_HOOKS w
    /\ _TOOL_DESCRIPTIONS w' = _TOOL_DESCRIPTIONS w.

(** ** Relating a copy to its source *)

(** Whatever [x] reads as in the heap [h0], [y] reads as in the heap [h]. *)
Definition agree_slot (h0 h : list (option Obj)) (x y : Slot) : Prop :=
  forall k d, read k h0 x = Some d -> read k h y = Some d.

(** The memo entries for objects under [x] point to finished copies. *)
Definition memo_ok (h0 h : list (option Obj)) (memo : gmap nat nat) (x : Slot) : Prop :=
  forall l l', memo !! l = Some l' -> reach h0 x l -> agree_slot h0 h (Ref l) (Ref l').

(** The result [r] of copying [x] from memo [memo] and heap [h]: a slot that
    reads as [x] does, in a heap that only grew, with a memo that only grew
    and whose new entries point to finished copies. *)
Definition copied (h0 : list (option Obj)) (x : Slot) (memo : gmap nat nat)
    (h : list (option Obj)) (r : Result (Slot * gmap nat nat * list (option Obj))) : Prop :=
  exists y memo' h',
    r = Ok (y, memo', h')
    /\ h `prefix_of` h'
    /\ memo ⊆ memo'
    /\ agree_slot h0 h' x y
    /\ (forall l l', memo' !! l = Some l' -> memo !! l = None ->
        agree_slot h0 h' (Ref l) (Ref l')).

Definition copied_seq (h0 : list (option Obj)) (xs : list Slot) (memo : gmap nat nat)
    (h : list (option Obj)) (r : Result (list Slot * gmap nat nat * list (option Obj))) : Prop :=
  exists ys memo' h',
    r = Ok (ys, memo', h')
    /\ h `prefix_of` h'
    /\ memo ⊆ memo'
    /\ Forall2 (agree_slot h0 h') xs ys
    /\ (forall l l', memo' !! l = Some l' -> memo !! l = None ->
        agree_slot h0 h' (Ref l) (Ref l')).

(** A slot, a memo and a heap that refer to no object below [b] from an
    object at or above [b]. *)
Definition fresh_slot (b : loc) (x : Slot) : Prop :=
  match x with
  | Imm _ => True
  | Ref l => b <= l
  end.

Definition fresh_memo (b : loc) (memo : gmap nat nat) : Prop :=
  forall l l', memo !! l = Some l' -> b <= l'.

Definition closed_above (b : loc) (h : list (option Obj)) : Prop :=
  forall l o, b <= l -> deref h l = Some o -> Forall (fresh_slot b) (children o).

(** * Calls to the module *)

Inductive Call : Type :=
| CallRegister (func : PyFunc)
| CallDispatch (tool_name : string) (tool_params : list (string * PyVal))
| CallGetTools.

Section Run.
Variable format_exc : PyExc -> string.
Variable pformat : list (option Obj) -> Slot -> string.

Definition step (c : Call) (w : World) : World :=
  match c with
  | CallRegister func => (register_tool pformat func w).2
  | CallDispatch tool_name tool_params => (dispatch_tool format_exc tool_name tool_params w).2
  | CallGetTools => (get_tools w).2
  end.

Definition run (cs : list Call) (w : World) : World := foldl (fun w c => step c w) w cs.
End Run.

(** The two mappings hold the same names, in the same order. *)
Definition lockstep (w : World) : Prop :=
  dict_keys (_TOOL_HOOKS w) = dict_keys (_TOOL_DESCRIPTIONS w).

(** * Sample callables *)

Module Samples.

Definition int_ : PyType := TClass "builtins" "int" "int".
Definition str_ : PyType := TClass "builtins" "str" "str".
Definition tuple_ : PyType := TClass "builtins" "tuple" "tuple".

(** A parameter declared as [name: a], without default. *)
Definition param (a : Annotation) : Param := mkParam POSITIONAL_OR_KEYWORD a None.

(** The declarations of the three tools the module registers at import;
    their bodies are supplied by the caller. *)
Definition random_number_generator (body : list (string * PyVal) -> Result PyVal) : PyFunc :=
  mkFunc "random_number_generator" "random_number_generator"
    (Some "Generates a random number x, s.t. range[0] <= x < range[1]")
    [("seed", param (Annotated int_ [VStr "The random seed used by the generator";
                                     VBool true]));
     ("range", param (Annotated (TGenericAlias tuple_ [int_; int_])
                          [VStr "The range of the generated numbers"; VBool true]))]
    body.

Definition get_weather (body : list (string * PyVal) -> Result PyVal) : PyFunc :=
  mkFunc "get_weather" "get_weather"
    (Some "Get the current weather for `city_name`")
    [("city_name", param (Annotated str_ [VStr "The name of the city to be queried";
                                          VBool true]))]
    body.

Definition IM_Handbook (body : list (string * PyVal) -> Result PyVal) : PyFunc :=
  mkFunc "IM_Handbook" "IM_Handbook"
    (Some "Get the explain for `key_word_name`")
    [("key_word_name", param (Annotated str_ [VStr "The name of the Knowledge"; VBool true]))]
    body.

(** [x + 1] *)
Definition add_one (x : PyVal) : Result PyVal :=
  match x with
  | VInt z => Ok (VInt (z + 1))
  | VBool b => Ok (VInt ((if b then 1 else 0) + 1))
  | _ => Raise (TypeError "unsupported operand type(s) for +")
  end.

(** [def f(x: Annotated[int, 'An integer', True]): return x + 1] *)
Definition f : PyFunc :=
  mkFunc "f" "f" (Some "Return x plus one")
    [("x", param (Annotated int_ [VStr "An integer"; VBool true]))]
    (fun locals =>
       match dict_get "x" locals with
       | Some x => add_one x
       | None => Raise (mkExc "UnboundLocalError" "x")
       end).

(** A second callable named [f], which returns its argument unchanged. *)
Definition f' : PyFunc :=
  mkFunc "f" "f" (Some "Return x")
    [("x", param (Annotated str_ [VStr "Any text"; VBool false]))]
    (fun locals =>
       match dict_get "x" locals with
       | Some x => Ok x
       | None => Raise (mkExc "UnboundLocalError" "x")
       end).

(** A tool that rejects every input. *)
Definition picky : PyFunc :=
  mkFunc "picky" "picky" (Some "Rejects its input")
    [("x", param (Annotated int_ [VStr "An integer"; VBool true]))]
    (fun _ => Raise (TypeError "x must be an integer")).

(** [def moody(): return Moody()], where [Moody.__str__] raises
    [RuntimeError("not now")]. *)
Definition not_now : PyExc := mkExc "RuntimeError" "not now".

Definition moody : PyFunc :=
  mkFunc "moody" "moody" (Some "Return an object that cannot be shown") []
    (fun _ => Ok (VObject "Moody" (Raise not_now) (Ok "<Moody object>"))).

(** A tool that takes any keywords, [options] being declared with two
    stars and as [Annotated[str, 'Further options', False]], and returns
    [len(options)]. *)
Definition collect : PyFunc :=
  mkFunc "collect" "collect" (Some "Count the options")
    [("options", mkParam VAR_KEYWORD
                   (Annotated str_ [VStr "Further options"; VBool false]) None)]
    (fun locals =>
       match dict_get "options" locals with
       | Some (VDict options) => Ok (VInt (Z.of_nat (length options)))
       | _ => Raise (mkExc "UnboundLocalError" "options")
       end).

(** The empty list inside [n] lists, and a tool that returns it more
    deeply nested than [repr] follows. *)
Fixpoint nested (n : nat) : PyVal :=
  match n with
  | 0 => VList []
  | S n' => VList [nested n']
  end.

Definition deep : PyFunc :=
  mkFunc "deep" "deep" (Some "Return a deeply nested list") []
    (fun _ => Ok (nested recursion_limit)).

(** Callables whose declarations registration refuses. *)
Definition no_body : list (string * PyVal) -> Result PyVal := fun _ => Ok VNone.

(** [def bare(x): ...] *)
Definition bare : PyFunc :=
  mkFunc "bare" "bare" (Some "No annotation") [("x", param Empty)] no_body.

(** [def plain(x: int): ...] *)
Definition plain : PyFunc :=
  mkFunc "plain" "plain" (Some "Not Annotated") [("x", param (Plain int_))] no_body.

(** [def two_part(x: Annotated[int, 'An integer']): ...] *)
Definition two_part : PyFunc :=
  mkFunc "two_part" "two_part" (Some "Two parts")
    [("x", param (Annotated int_ [VStr "An integer"]))] no_body.

(** [def numbered(x: Annotated[int, 5, True]): ...] *)
Definition numbered : PyFunc :=
  mkFunc "numbered" "numbered" (Some "Description is a number")
    [("x", param (Annotated int_ [VInt 5; VBool true]))] no_body.

(** [def flagged(x: Annotated[int, 'An integer', 'yes']): ...] *)
Definition flagged : PyFunc :=
  mkFunc "flagged" "flagged" (Some "Flag is a string")
    [("x", param (Annotated int_ [VStr "An integer"; VStr "yes"]))] no_body.

(** [def either(x: Annotated[int | str, 5, True]): ...]; the union
    [int | str] has no [__name__]. *)
Definition either : PyFunc :=
  mkFunc "either" "either" (Some "Union type")
    [("x", param (Annotated (TOther "types.UnionType" "int | str" None)
                      [VInt 5; VBool true]))] no_body.

(** [def undocumented(x): ...], without a docstring. *)
Definition undocumented : PyFunc :=
  mkFunc "undocumented" "undocumented" None [("x", param Empty)] no_body.

(** A callable whose docstring holds only whitespace. *)
Definition blank_doc : PyFunc :=
  mkFunc "blank_doc" "blank_doc" (Some "   ") [] no_body.

Definition sample_format_exc (e : PyExc) : string :=
  "Traceback (most recent call last):" +:+ String (ascii_of_nat 10) ""
  +:+ exc_class e +:+ ": " +:+ exc_msg e +:+ String (ascii_of_nat 10) "".

Definition sample_pformat (h : list (option Obj)) (x : Slot) : string :=
  match x with
  | Imm v => match py_repr v with Ok s => s | Raise e => "<" +:+ exc_class e +:+ ">" end
  | Ref l => "<object " +:+ PyStr.of_Z (Z.of_nat l) +:+ ">"
  end.

(** The state after the module has registered [f], and its catalog. *)
Definition world_f : World := (register_tool sample_pformat f world0).2.

Definition catalog_f : Data :=
  DDict [("f", DDict [("name", DImm (VStr "f"));
                      ("description", DImm (VStr "Return x plus one"));
                      ("params",
                       DList [DDict [("name", DImm (VStr "x"));
                                     ("description", DImm (VStr "An integer"));
                                     ("type", DImm (VStr "int"));
                                     ("required", DImm (VBool true))]])])].

(** The state after the module has registered [picky]. *)
Definition world_picky : World := (register_tool sample_pformat picky world0).2.

(** The state after the module has registered [f] and then [picky]. *)
Definition world_f_picky : World := (register_tool sample_pformat picky world_f).2.

(** The state after the module has registered [moody], [collect] and
    [deep]. *)
Definition world_moody : World :=
  (register_tool sample_pformat deep
     (register_tool sample_pformat collect
        (register_tool sample_pformat moody world0).2).2).2.

End Samples.

(** * The tools the module registers

    The bodies of [random_number_generator], [get_weather] and
    [IM_Handbook].  What they take from outside the module is a parameter:
    the random number generator, the [requests] library with the network
    behind it, and [traceback.format_exc]. *)

Module Tools.

Definition IndexError (msg : string) : PyExc := mkExc "IndexError" msg.
Definition NameError (msg : string) : PyExc := mkExc "NameError" msg.

(** [isinstance(v, int)]; a [bool] is an [int]. *)
Definition isinstance_int (v : PyVal) : bool :=
  match v with VInt _ | VBool _ => true | _ => false end.

(** [isinstance(v, tuple)] *)
Definition isinstance_tuple (v : PyVal) : bool :=
  match v with VTuple _ => true | _ => false end.

(** [type(v).__name__] *)
Definition type_name (v : PyVal) : string :=
  match v with
  | VNone => "NoneType"
  | VBool _ => "bool"
  | VInt _ => "int"
  | VStr _ => "str"
  | VTuple _ => "tuple"
  | VList _ => "list"
  | VDict _ => "dict"
  | VObject cls _ _ => cls
  end.

(** [c[i]] for a non-negative integer literal [i]. *)
Definition getitem_index (c : PyVal) (i : nat) : Result PyVal :=
  match c with
  | VTuple xs =>
      match xs !! i with
      | Some x => Ok x
      | None => Raise (IndexError "tuple index out of range")
      end
  | VList xs =>
      match xs !! i with
      | Some x => Ok x
      | None => Raise (IndexError "list index out of range")
      end
  | VStr s =>
      match String.get i s with
      | Some ch => Ok (VStr (String ch ""))
      | None => Raise (IndexError "string index out of range")
      end
  | VDict _ => Raise (KeyError (PyStr.of_Z (Z.of_nat i)))
  | _ => Raise (TypeError ("'" +:+ type_name c +:+ "' object is not subscriptable"))
  end.

(** [c[k]] for a [str] key [k]. *)
Definition getitem_key (c : PyVal) (k : string) : Result PyVal :=
  match c with
  | VDict kvs =>
      match dict_get k kvs with
      | Some v => Ok v
      | None => Raise (KeyError (PyStr.repr k))
      end
  | VTuple _ => Raise (TypeError "tuple indices must be integers or slices, not str")
  | VList _ => Raise (TypeError "list indices must be integers or slices, not str")
  | VStr _ => Raise (TypeError "string indices must be integers, not 'str'")
  | _ => Raise (TypeError ("'" +:+ type_name c +:+ "' object is not subscriptable"))
  end.

(** [{k: value(k) for k in keys}], continued from the entries in [acc]. *)
Fixpoint dict_comprehension (keys : list string) (value : string -> Result PyVal)
    (acc : list (string * PyVal)) : Result (list (string * PyVal)) :=
  match keys with
  | [] => Ok acc
  | k :: keys' =>
      match value k with
      | Raise e => Raise e
      | Ok v => dict_comprehension keys' value (dict_set k v acc)
      end
  end.

(** ** [random_number_generator] *)

(** [randint seed args] stands for [random.Random(seed).randint( *args)]. *)
Definition random_number_generator_body
    (randint : PyVal -> list PyVal -> Result PyVal)
    (locals : list (string * PyVal)) : Result PyVal :=
  match dict_get "seed" locals, dict_get "range" locals with
  | Some seed, Some range =>
      if negb (isinstance_int seed) then Raise (TypeError "Seed must be an integer")
      else if negb (isinstance_tuple range) then Raise (TypeError "Range must be a tuple")
      else
        match getitem_index range 0 with
        | Raise e => Raise e
        | Ok r0 =>
            if negb (isinstance_int r0)
            then Raise (TypeError "Range must be a tuple of integers")
            else
              match getitem_index range 1 with
              | Raise e => Raise e
              | Ok r1 =>
                  if negb (isinstance_int r1)
                  then Raise (TypeError "Range must be a tuple of integers")
                  else randint seed (match range with VTuple items => items | _ => [] end)
              end
        end
  | _, _ => Raise (NameError "name is not defined")
  end.

Definition random_number_generator (randint : PyVal -> list PyVal -> Result PyVal) : PyFunc :=
  Samples.random_number_generator (random_number_generator_body randint).

(** ** [get_weather] *)

Definition key_selection : list (string * list string) :=
  [("current_condition",
    ["temp_C"; "FeelsLikeC"; "humidity"; "weatherDesc"; "observation_time"])].

(** [{_v: resp[k][0][_v] for _v in v}] *)
Definition select_fields (resp : PyVal) (k : string) (v : list string)
  : Result (list (string * PyVal)) :=
  dict_comprehension v
    (fun _v =>
       match getitem_key resp k with
       | Raise e => Raise e
       | Ok a =>
           match getitem_index a 0 with
           | Raise e => Raise e
           | Ok b => getitem_key b _v
           end
       end) [].

(** [{k: {...} for k, v in key_selection.items()}] *)
Definition select (resp : PyVal) : Result (list (string * PyVal)) :=
  dict_comprehension key_selection.*1
    (fun k =>
       match dict_get k key_selection with
       | None => Raise (KeyError (PyStr.repr k))
       | Some v =>
           match select_fields resp k v with
           | Raise e => Raise e
           | Ok d => Ok (VDict d)
           end
       end) [].

(** The address asked for the weather of [city_name]. *)
Definition weather_url (city_name : string) : string :=
  "https://wttr.in/" +:+ city_name +:+ "?format=j1".

(** What [ret] is set to when the request or the selection raises [e]. *)
Definition fetch_error (format_exc : PyExc -> string) (e : PyExc) : PyVal :=
  VStr ("Error encountered while fetching weather data!"
        +:+ String (ascii_of_nat 10) "" +:+ format_exc e).

(** [requests] stands for [import requests]: the import raises, or gives
    the function that takes a URL through [requests.get],
    [raise_for_status] and [json], to the decoded reply or the exception
    raised on the way.  The closing [str(ret)] comes after the [try]
    statement. *)
Definition get_weather_body
    (requests : Result (string -> Result PyVal))
    (format_exc : PyExc -> string)
    (locals : list (string * PyVal)) : Result PyVal :=
  match dict_get "city_name" locals with
  | None => Raise (NameError "name is not defined")
  | Some (VStr city_name) =>
      match requests with
      | Raise e => Raise e
      | Ok fetch =>
          let ret :=
            match fetch (weather_url city_name) with
            | Raise e => fetch_error format_exc e
            | Ok resp =>
                match select resp with
                | Raise e => fetch_error format_exc e
                | Ok d => VDict d
                end
            end in
          result_map VStr (py_str ret)
      end
  | Some _ => Raise (TypeError "City name must be a string")
  end.

Definition get_weather (requests : Result (string -> Result PyVal))
    (format_exc : PyExc -> string) : PyFunc :=
  Samples.get_weather (get_weather_body requests format_exc).

(** ** [IM_Handbook] *)

(** The handbook.  Its last key and its texts go beyond the code points
    below 256 and are held as their UTF-8 bytes: the tool only compares a
    key for equality and returns a text as it stands. *)
Definition book : list (string * string) :=
  [("FIOS",
    "Factory Intelligent Operation System，工厂智能运营管理：是一种采用人工智能和物联网技术的工厂数字化管理系统。它可以实现生产过程的全面监控、数据分析和预测，实现生产资源的精细化管理和智能化运营监控，帮助企业优化生产流程、提高生产效率和降低成本。包括：生产计划、仓储物流、质量控制、机器维护、供应链管理、和成本分析等管理功能。");
   ("APS",
    "Advanced Planning System，高级计划排程系统：提供爬坡、试产和量产等不同阶段的物料计划与生产计划的排布与调整、以及监控与反馈生产达成情况的功能。");
   ("PMS",
    "Process management system，工艺管理系统：提供工艺SOP设计与制作、审批与转发、工艺项目管理、工艺差异分析、工艺问题诊断与解决方案推荐的一系列工艺数字化功能");
   ("MES",
    "Manufacturing execution system，制造执行系统：对产线生产过程进行管理和卡控	包括：过站配置与管理、与自动化对接、产线物流调度、数据采集与分析等");
   ("WMS",
    "Warehouse management system，仓储物流管理系统：提供物料、半成品和成品的仓储物流全部环节的管理，包括：出库、入库、库内管理、备品备件管理、与AGV或智能货架等智能设备对接、物流调度等");
   ("QMS",
    "Quality Management System，质量管理系统：依据质量管理体系对工厂从来料到成品出厂进行全流程的质量管理，包括：lQC、IPQC、FQC、0QC、质量分析、质量溯源等");
   ("TPM",
    "Total Productive Maintenance，设备管理系统：提供工厂内生产设备全生命周期的维保管理和资产管理工具，包括：维保计划、维保实施、备件管理、资产管理等");
   ("MOM",
    "Manufacturing Operation Management，制造运营管理：制造运营管理系统平台");
   ("于成铭",
    "软件工程部下属工业智能组的一名成员，负责数字员工项目")].

(** [key in book.keys()] *)
Definition in_book (key : PyVal) : bool :=
  match key with
  | VStr k => dict_contains k book
  | _ => false
  end.

Definition IM_Handbook_body (locals : list (string * PyVal)) : Result PyVal :=
  match dict_get "key_word_name" locals with
  | None => Raise (NameError "name is not defined")
  | Some key_word_name =>
      if negb (isinstance_str key_word_name)
      then Raise (TypeError "Key word name must be a string")
      else if negb (in_book key_word_name)
      then Raise (TypeError "Key word name is not contained")
      else
        match key_word_name with
        | VStr k =>
            match dict_get k book with
            | Some result => Ok (VStr result)
            | None => Raise (KeyError (PyStr.repr k))
            end
        | _ => Raise (TypeError "unhashable type")
        end
  end.

Definition IM_Handbook : PyFunc := Samples.IM_Handbook IM_Handbook_body.

End Tools.

(** * The text of a heap object *)

(** [repr(x)] for a slot, following objects at most [n] deep: an object
    met again while it is being rendered is shown as an ellipsis. *)
Fixpoint slot_repr (n : nat) (busy : list nat) (h : list (option Obj)) (x : Slot)
  : Result string :=
  match x with
  | Imm v => py_repr_at n v
  | Ref l =>
      match deref h l with
      | None => Raise (SystemError "reference to no object")
      | Some o =>
          if bool_decide (l ∈ busy)
          then Ok (match o with ODict _ => "{...}" | OList _ => "[...]" end)
          else
            match n with
            | 0 => Raise repr_too_deep
            | S n' =>
                result_map (match o with
                            | OList _ => list_text
                            | ODict kvs => dict_text kvs.*1
                            end)
                           (map_results (slot_repr n' (l :: busy) h) (children o))
            end
      end
  end.

(** [str(x)] for a slot. *)
Definition slot_str (x : Slot) : M string :=
  fun w =>
    match x with
    | Imm v => (py_str v, w)
    | Ref _ => (slot_repr recursion_limit [] (heap w) x, w)
    end.

(** The value a tree of data stands for. *)
Fixpoint data_val (d : Data) : PyVal :=
  match d with
  | DImm v => v
  | DDict items => VDict (map (fun kd => (kd.1, data_val kd.2)) items)
  | DList items => VList (map data_val items)
  end.

(** * Import and the script *)

Section Script.
Variable randint : PyVal -> list PyVal -> Result PyVal.
Variable requests : Result (string -> Result PyVal).
Variable format_exc : PyExc -> string.
Variable pformat : list (option Obj) -> Slot -> string.

(** Importing the module: the three decorated definitions, in order. *)
Definition import_module : M unit :=
  let* _ := register_tool pformat (Tools.random_number_generator randint) in
  let* _ := register_tool pformat (Tools.get_weather requests format_exc) in
  let* _ := register_tool pformat Tools.IM_Handbook in
  ret tt.

(** The body of [if __name__ == "__main__":]. *)
Definition main : M unit :=
  let* observation := dispatch_tool format_exc "get_weather" [("city_name", VStr "beijing")] in
  print observation ;;
  let* tools := get_tools in
  let* text := slot_str tools in
  print text.

End Script.

(** * Sample surroundings for the tools *)

Module ToolSamples.

(** A generator that returns the lower end of the range. *)
Definition sample_randint (seed : PyVal) (args : list PyVal) : Result PyVal :=
  match args with
  | [VInt a; VInt b] =>
      if (a <=? b)%Z then Ok (VInt a) else Raise (ValueError "empty range for randrange()")
  | _ => Raise (TypeError "randint() takes 3 positional arguments")
  end.

(** A decoded reply: the five fields and one more. *)
Definition sample_condition : PyVal :=
  VDict [("FeelsLikeC", VStr "19");
         ("cloudcover", VStr "0");
         ("humidity", VStr "40");
         ("observation_time", VStr "09:00 AM");
         ("temp_C", VStr "20");
         ("weatherDesc", VList [VDict [("value", VStr "Sunny")]])].

Definition sample_reply : PyVal :=
  VDict [("current_condition", VList [sample_condition]); ("nearest_area", VList [])].

Definition sample_fetch (url : string) : Result PyVal := Ok sample_reply.

(** A network that is down. *)
Definition sample_offline (url : string) : Result PyVal :=
  Raise (mkExc "ConnectionError" "Max retries exceeded").

(** The state after import, in these surroundings. *)
Definition world_tools : World :=
  (import_module sample_randint (Ok sample_fetch) Samples.sample_format_exc
                 Samples.sample_pformat world0).2.

End ToolSamples.

(** * Facts about dictionaries *)

Section DictFacts.
Context {V : Type}.
Implicit Types (d : list (string * V)) (k : string) (v : V).

Lemma dict_get_set_eq k v d : dict_get k (dict_set k v d) = Some v.
Proof.
  induction d as [|[k' v'] d IH]; simpl.
  - by rewrite String.eqb_refl.
  - destruct (String.eqb_spec k k') as [->|Hne]; simpl.
    + by rewrite String.eqb_refl.
    + by destruct (String.eqb_spec k k').
Qed.

Lemma dict_get_set_ne k k' v d : k ≠ k' -> dict_get k' (dict_set k v d) = dict_get k' d.
Proof.
  intros Hne. induction d as [|[k0 v0] d IH]; simpl.
  - by destruct (String.eqb_spec k' k) as [->|].
  - destruct (String.eqb_spec k k0) as [->|Hk]; simpl.
    + by destruct (String.eqb_spec k' k0) as [->|].
    + by rewrite IH.
Qed.

Lemma dict_contains_get k d : dict_contains k d = true <-> is_Some (dict_get k d).
Proof.
  unfold dict_contains. destruct (dict_get k d); split; intros H; done.
Qed.

Lemma dict_get_keys k d : is_Some (dict_get k d) <-> k ∈ dict_keys d.
Proof.
  unfold dict_keys. induction d as [|[k' v'] d IH]; simpl.
  - split; [intros []; done | intros H; by apply elem_of_nil in H].
  - rewrite elem_of_cons. destruct (String.eqb_spec k k') as [->|Hne].
    + split; [by left | by eexists].
    + rewrite IH. split; [by right | by intros [?|?]].
Qed.

(** Assignment to a present key keeps the keys; to an absent key it adds
    the key at the end. *)
Lemma dict_keys_set k v d :
  dict_keys (dict_set k v d)
  = if dict_contains k d then dict_keys d else dict_keys d ++ [k].
Proof.
  unfold dict_keys, dict_contains. induction d as [|[k' v'] d IH]; [done|].
  cbn [dict_set dict_get].
  destruct (String.eqb_spec k k') as [->|Hne]; [done|].
  rewrite !fmap_cons, IH. by destruct (dict_get k d).
Qed.
End DictFacts.

Lemma dict_contains_keys {V W : Type} (d1 : list (string * V)) (d2 : list (string * W)) k :
  dict_keys d1 = dict_keys d2 -> dict_contains k d1 = dict_contains k d2.
Proof.
  unfold dict_keys, dict_contains.
  revert d2; induction d1 as [|[k1 v1] d1 IH]; intros [|[k2 v2] d2] Hk; simplify_eq/=; [done|].
  destruct (String.eqb k k2); [done|]. by apply IH.
Qed.

(** * Facts about [strip] *)

Lemma lstrip_split s : exists l, s = l +:+ PyStr.lstrip s /\ PyStr.blank l = true.
Proof.
  induction s as [|c s [l [Hl Hb]]]; simpl.
  - by exists "".
  - destruct (PyStr.isspace c) eqn:Hc.
    + exists (String c l). split; [exact (f_equal (String c) Hl) | cbn; by rewrite Hc, Hb].
    + by exists "".
Qed.

Lemma rstrip_split s : exists r, s = PyStr.rstrip s +:+ r /\ PyStr.blank r = true.
Proof.
  induction s as [|c s [r [Hr Hb]]]; simpl.
  - by exists "".
  - destruct (PyStr.rstrip s) eqn:Hs.
    + destruct (PyStr.isspace c) eqn:Hc.
      * exists (String c r). split; [exact (f_equal (String c) Hr) | cbn; by rewrite Hc, Hb].
      * exists r. split; [exact (f_equal (String c) Hr) | done].
    + exists r. split; [exact (f_equal (String c) Hr) | done].
Qed.

Lemma lstrip_first s c : PyStr.first (PyStr.lstrip s) = Some c -> PyStr.isspace c = false.
Proof.
  induction s as [|c' s IH]; simpl; [done|].
  destruct (PyStr.isspace c') eqn:Hc; [done|]. simpl. by intros [= <-].
Qed.

Lemma rstrip_last s c : PyStr.last (PyStr.rstrip s) = Some c -> PyStr.isspace c = false.
Proof.
  induction s as [|c' s IH]; simpl; [done|].
  destruct (PyStr.rstrip s) as [|c1 s1] eqn:Hs.
  - destruct (PyStr.isspace c') eqn:Hc; [done|]. simpl. by intros [= <-].
  - intros H. apply IH. exact H.
Qed.

Lemma rstrip_first s c :
  PyStr.first s = Some c -> PyStr.isspace c = false -> PyStr.first (PyStr.rstrip s) = Some c.
Proof.
  destruct s as [|c' s]; simpl; [done|]. intros [= ->] Hc.
  destruct (PyStr.rstrip s); [by rewrite Hc|done].
Qed.

(** [strip] removes a run of whitespace at each end, and what it returns
    neither starts nor ends with whitespace. *)
Lemma strip_spec s :
  (exists l r, s = l +:+ PyStr.strip s +:+ r /\ PyStr.blank l = true /\ PyStr.blank r = true)
  /\ (forall c, PyStr.first (PyStr.strip s) = Some c -> PyStr.isspace c = false)
  /\ (forall c, PyStr.last (PyStr.strip s) = Some c -> PyStr.isspace c = false).
Proof.
  unfold PyStr.strip. split; [|split].
  - destruct (lstrip_split s) as [l [Hl Hbl]].
    destruct (rstrip_split (PyStr.lstrip s)) as [r [Hr Hbr]].
    exists l, r. by rewrite <- Hr, <- Hl.
  - intros c Hc. destruct (PyStr.lstrip s) as [|c0 s0] eqn:Hs; [done|].
    destruct (PyStr.isspace c0) eqn:H0.
    + pose proof (lstrip_first s c0) as Hf. rewrite Hs in Hf. simpl in Hf.
      specialize (Hf eq_refl). congruence.
    + rewrite (rstrip_first (String c0 s0) c0 eq_refl H0) in Hc. congruence.
  - intros c. apply rstrip_last.
Qed.

(** * The dispatcher *)

(** Binding refuses with a [TypeError] only. *)
Lemma bind_error_TypeError func kwargs e :
  bind_error func kwargs = Some e -> exists msg, e = TypeError msg.
Proof.
  unfold bind_error, missing_error.
  destruct (if has_var_keyword func then None else unexpected_keyword func kwargs).
  - destruct (positional_only_passed func kwargs); intros [= <-]; by eexists.
  - destruct (missing_positional func kwargs); [|intros [= <-]; by eexists].
    destruct (missing_keyword_only func kwargs); [done|intros [= <-]; by eexists].
Qed.

(** Without a [**kwargs] parameter, a keyword that fills no parameter is
    refused. *)
Lemma bind_error_unexpected func kwargs k :
  has_var_keyword func = false ->
  unexpected_keyword func kwargs = Some k ->
  is_Some (bind_error func kwargs).
Proof. unfold bind_error. intros -> ->. by eexists. Qed.

(** A required parameter left without a value is refused. *)
Lemma bind_error_missing func kwargs :
  missing_positional func kwargs <> [] \/ missing_keyword_only func kwargs <> [] ->
  is_Some (bind_error func kwargs).
Proof.
  unfold bind_error. intros Hm.
  destruct (if has_var_keyword func then None else unexpected_keyword func kwargs);
    [by eexists|].
  destruct (missing_positional func kwargs); [|by eexists].
  destruct (missing_keyword_only func kwargs); [|by eexists].
  by destruct Hm.
Qed.

Lemma py_call_bound func kwargs :
  bind_error func kwargs = None -> py_call func kwargs = fn_body func (bind_arguments func kwargs).
Proof. unfold py_call. by intros ->. Qed.

Lemma py_call_refused func kwargs e :
  bind_error func kwargs = Some e -> py_call func kwargs = Raise e.
Proof. unfold py_call. by intros ->. Qed.

Section DispatchFacts.
Variable format_exc : PyExc -> string.

(** [dispatch_tool] in closed form. *)
Lemma dispatch_tool_unfold w tool_name tool_params :
  dispatch_tool format_exc tool_name tool_params w =
  match dict_get tool_name (_TOOL_HOOKS w) with
  | None => (Ok ("Tool `" +:+ tool_name +:+ "` not found. Please use a provided tool."), w)
  | Some func =>
      match py_call func tool_params with
      | Ok v => (py_str v, w)
      | Raise e => (Ok (format_exc e), w)
      end
  end.
Proof.
  unfold dispatch_tool, bind, hooks_contains, hooks_getitem, dict_contains, try_except, lift, ret.
  destruct (dict_get tool_name (_TOOL_HOOKS w)) as [func|] eqn:Hget; simpl; [|done].
  rewrite Hget. by destruct (py_call func tool_params).
Qed.

(** Every dispatch, whatever its outcome, leaves the state as it was. *)
Lemma dispatch_tool_frame w tool_name tool_params :
  (dispatch_tool format_exc tool_name tool_params w).2 = w.
Proof.
  rewrite dispatch_tool_unfold.
  destruct (dict_get tool_name (_TOOL_HOOKS w)) as [func|]; [|done].
  by destruct (py_call func tool_params).
Qed.

(** X17: for a registered tool and any arguments, every failure raised
    while the tool is invoked is contained: [dispatch_tool] returns the
    text of its trace, be it raised by the body or by the binding of the
    arguments (a keyword that fills no parameter of a tool without
    [**kwargs], a required parameter left without a value).  When the tool
    returns, the outcome of [dispatch_tool] is that of [str] on the value
    returned.  A dispatch raises in no other case than that of this
    conversion, and the state is always left as it was. *)
Theorem dispatch_tool_contains_failures w tool_name tool_params func :
  dict_get tool_name (_TOOL_HOOKS w) = Some func ->
  (forall e,
      bind_error func tool_params = None ->
      fn_body func (bind_arguments func tool_params) = Raise e ->
      dispatch_tool format_exc tool_name tool_params w = (Ok (format_exc e), w))
  /\ (forall e,
        bind_error func tool_params = Some e ->
        dispatch_tool format_exc tool_name tool_params w = (Ok (format_exc e), w)
        /\ exists msg, e = TypeError msg)
  /\ (forall k,
        has_var_keyword func = false ->
        unexpected_keyword func tool_params = Some k ->
        exists msg,
          dispatch_tool format_exc tool_name tool_params w
          = (Ok (format_exc (TypeError msg)), w))
  /\ (missing_positional func tool_params <> [] \/ missing_keyword_only func tool_params <> [] ->
      exists msg,
        dispatch_tool format_exc tool_name tool_params w
        = (Ok (format_exc (TypeError msg)), w))
  /\ (forall v,
        bind_error func tool_params = None ->
        fn_body func (bind_arguments func tool_params) = Ok v ->
        dispatch_tool format_exc tool_name tool_params w = (py_str v, w))
  /\ (forall e w',
        dispatch_tool format_exc tool_name tool_params w = (Raise e, w') ->
        exists v,
          bind_error func tool_params = None
          /\ fn_body func (bind_arguments func tool_params) = Ok v
          /\ py_str v = Raise e)
  /\ (dispatch_tool format_exc tool_name tool_params w).2 = w.
Proof.
  intros Hf.
  assert (forall e, bind_error func tool_params = Some e ->
                    dispatch_tool format_exc tool_name tool_params w = (Ok (format_exc e), w))
    as Hrefused.
  { intros e He. by rewrite dispatch_tool_unfold, Hf, (py_call_refused _ _ _ He). }
  split; [|split; [|split; [|split; [|split; [|split]]]]].
  - intros e Hb He. by rewrite dispatch_tool_unfold, Hf, (py_call_bound _ _ Hb), He.
  - intros e He. split; [by apply Hrefused|]. by eapply bind_error_TypeError.
  - intros k Hkw Hk. destruct (bind_error_unexpected _ _ _ Hkw Hk) as [e He].
    destruct (bind_error_TypeError _ _ _ He) as [msg ->]. exists msg. by apply Hrefused.
  - intros Hm. destruct (bind_error_missing _ _ Hm) as [e He].
    destruct (bind_error_TypeError _ _ _ He) as [msg ->]. exists msg. by apply Hrefused.
  - intros v Hb Hv. by rewrite dispatch_tool_unfold, Hf, (py_call_bound _ _ Hb), Hv.
  - intros e w' Hr. rewrite dispatch_tool_unfold, Hf in Hr.
    destruct (bind_error func tool_params) as [e'|] eqn:Hb.
    + by rewrite (py_call_refused _ _ _ Hb) in Hr.
    + rewrite (py_call_bound _ _ Hb) in Hr.
      destruct (fn_body func (bind_arguments func tool_params)) as [v|e'] eqn:Hv; [|done].
      exists v. split; [done|]. split; [done|]. by simplify_eq.
  - apply dispatch_tool_frame.
Qed.

(** C1: [dispatch_tool] guards the call of the tool and nothing else: the
    result is converted by [str] after the [try] statement.  So when a
    registered tool returns a value on which [str] raises, the exception
    reaches the caller and no string is returned.  This happens for the
    tool [moody], whose result has a [__str__] that raises [RuntimeError],
    and for the tool [deep], whose result is nested more deeply than
    [repr] follows. *)
Theorem dispatch_tool_conversion_escapes :
  (forall w tool_name tool_params func v e,
      dict_get tool_name (_TOOL_HOOKS w) = Some func ->
      py_call func tool_params = Ok v ->
      py_str v = Raise e ->
      dispatch_tool format_exc tool_name tool_params w = (Raise e, w))
  /\ dispatch_tool format_exc "moody" [] Samples.world_moody
     = (Raise Samples.not_now, Samples.world_moody)
  /\ dispatch_tool format_exc "deep" [] Samples.world_moody
     = (Raise repr_too_deep, Samples.world_moody).
Proof.
  assert (forall w tool_name tool_params func v e,
             dict_get tool_name (_TOOL_HOOKS w) = Some func ->
             py_call func tool_params = Ok v ->
             py_str v = Raise e ->
             dispatch_tool format_exc tool_name tool_params w = (Raise e, w)) as H.
  { intros w tool_name tool_params func v e Hf Hv He.
    by rewrite dispatch_tool_unfold, Hf, Hv, He. }
  split; [exact H|]. split.
  - by apply (H _ _ _ Samples.moody
                (VObject "Moody" (Raise Samples.not_now) (Ok "<Moody object>"))).
  - apply (H _ _ _ Samples.deep (Samples.nested recursion_limit)); [done|done|].
    vm_compute. reflexivity.
Qed.

(** C3: for a name with no entry in the registry, [dispatch_tool] returns
    the fixed not-found message as an ordinary result, whatever tools are
    registered and whatever the arguments, and leaves the state, hence both
    mappings, as it was. *)
Theorem dispatch_tool_not_found w tool_name tool_params :
  dict_get tool_name (_TOOL_HOOKS w) = None ->
  dispatch_tool format_exc tool_name tool_params w
  = (Ok ("Tool `" +:+ tool_name +:+ "` not found. Please use a provided tool."), w).
Proof. intros Hf. by rewrite dispatch_tool_unfold, Hf. Qed.
End DispatchFacts.

(** * Facts about the heap *)

Lemma deref_Some h l o : deref h l = Some o <-> h !! l = Some (Some o).
Proof.
  unfold deref. destruct (h !! l) as [[o'|]|]; split; intros H; by simplify_eq.
Qed.

Lemma deref_lt h l o : deref h l = Some o -> l < length h.
Proof. rewrite deref_Some. apply lookup_lt_Some. Qed.

Lemma deref_app_l h t l : l < length h -> deref (h ++ t) l = deref h l.
Proof. intros Hl. unfold deref. by rewrite lookup_app_l. Qed.

Lemma deref_app_r h t i : deref (h ++ t) (length h + i) = deref t i.
Proof. unfold deref. by rewrite lookup_app_r, Nat.add_comm, Nat.add_sub by lia. Qed.

Lemma deref_middle h o t : deref (h ++ Some o :: t) (length h) = Some o.
Proof. apply deref_Some. by rewrite list_lookup_middle. Qed.

Lemma deref_insert_eq h l o : l < length h -> deref (<[l := Some o]> h) l = Some o.
Proof. intros Hl. unfold deref. by rewrite list_lookup_insert_eq. Qed.

Lemma deref_insert_ne h l l' c : l <> l' -> deref (<[l := c]> h) l' = deref h l'.
Proof. intros Hl. unfold deref. by rewrite list_lookup_insert_ne. Qed.

Lemma insert_middle {A} (h t : list A) x y : <[length h := y]> (h ++ x :: t) = h ++ y :: t.
Proof.
  replace (length h) with (length h + 0) at 1 by lia.
  by rewrite insert_app_r.
Qed.

Lemma extends_refl h : extends h h.
Proof. by intros l o. Qed.

Lemma extends_trans h1 h2 h3 : extends h1 h2 -> extends h2 h3 -> extends h1 h3.
Proof. intros H12 H23 l o Hl. by apply H23, H12. Qed.

Lemma extends_prefix h h' : h `prefix_of` h' -> extends h h'.
Proof.
  intros Hp l o. rewrite !deref_Some. intros Hl. by eapply prefix_lookup_Some.
Qed.

Lemma extends_app h t : extends h (h ++ t).
Proof. apply extends_prefix. by apply prefix_app_r. Qed.

(** Storing into a reserved cell keeps every object. *)
Lemma extends_fill h l o : h !! l = Some None -> extends h (<[l := Some o]> h).
Proof.
  intros Hl l' o'. rewrite !deref_Some. intros Hl'.
  destruct (decide (l = l')) as [->|Hne]; [by rewrite Hl in Hl'|].
  by rewrite list_lookup_insert_ne.
Qed.

Lemma prefix_insert_ge {A} (h h' : list A) l x :
  h `prefix_of` h' -> length h <= l -> h `prefix_of` <[l := x]> h'.
Proof.
  intros [t ->] Hl. exists (<[l - length h := x]> t).
  by rewrite insert_app_r_alt.
Qed.

(** * Reading *)

Lemma read_obj_unfold n h l :
  read (S n) h (Ref l) = deref h l ≫= read_obj n h.
Proof. simpl. unfold read_obj. by destruct (deref h l). Qed.

(** Reading is stable under heap extension. *)
Lemma read_extends n h h' x d : extends h h' -> read n h x = Some d -> read n h' x = Some d.
Proof.
  intros Hext. revert x d. induction n as [|n IH]; intros [v|l] d; simpl; try done.
  destruct (deref h l) as [o|] eqn:Ho; [|done].
  rewrite (Hext _ _ Ho). intros Hr.
  destruct (mapM (read n h) (children o)) as [ds|] eqn:Hds; [|done].
  simplify_eq/=. apply mapM_Some in Hds.
  assert (mapM (read n h') (children o) = Some ds) as ->; [|done].
  apply mapM_Some. eapply Forall2_impl; [exact Hds|]. intros x dx. apply IH.
Qed.

Lemma read_obj_extends n h h' o d :
  extends h h' -> read_obj n h o = Some d -> read_obj n h' o = Some d.
Proof.
  intros Hext. unfold read_obj.
  destruct (mapM (read n h) (children o)) as [ds|] eqn:Hds; [|done].
  intros ?; simplify_eq/=. apply mapM_Some in Hds.
  assert (mapM (read n h') (children o) = Some ds) as ->; [|done].
  apply mapM_Some. eapply Forall2_impl; [exact Hds|]. intros x dx. by apply read_extends.
Qed.

(** Reading is monotone in the depth allowed. *)
Lemma read_mono n m h x d : n <= m -> read n h x = Some d -> read m h x = Some d.
Proof.
  revert m x d. induction n as [|n IH]; intros m [v|l] d Hnm; simpl; try done;
    try by destruct m.
  destruct m as [|m]; [lia|]. simpl.
  destruct (deref h l) as [o|]; [|done].
  destruct (mapM (read n h) (children o)) as [ds|] eqn:Hds; [|done].
  intros ?; simplify_eq/=. apply mapM_Some in Hds.
  assert (mapM (read m h) (children o) = Some ds) as ->; [|done].
  apply mapM_Some. eapply Forall2_impl; [exact Hds|]. intros x dx. apply IH. lia.
Qed.

Lemma read_obj_mono n m h o d : n <= m -> read_obj n h o = Some d -> read_obj m h o = Some d.
Proof.
  intros Hnm. unfold read_obj.
  destruct (mapM (read n h) (children o)) as [ds|] eqn:Hds; [|done].
  intros ?; simplify_eq/=. apply mapM_Some in Hds.
  assert (mapM (read m h) (children o) = Some ds) as ->; [|done].
  apply mapM_Some. eapply Forall2_impl; [exact Hds|]. intros x dx. by apply read_mono.
Qed.

(** * Registration *)

(** The loop body of [register_tool] agrees with [param_spec]: on success it
    allocates the parameter entry and appends a reference to it. *)
Lemma register_tool_param_spec tool_params name param w xs :
  deref (heap w) tool_params = Some (OList xs) ->
  register_tool_param tool_params name param w =
  match param_spec name param with
  | Ok ps =>
      (Ok tt, set_heap (<[tool_params := Some (OList (xs ++ [Ref (length (heap w))]))]>
                          (heap w ++ [Some (param_obj ps)])) w)
  | Raise e => (Raise e, w)
  end.
Proof.
  intros Hl. unfold register_tool_param, param_spec.
  destruct (annotation param) as [| |typ metadata]; [done..|].
  unfold bind, lift. destruct (unpack2 metadata) as [[description required]|]; [|done].
  destruct (render_type typ) as [t|]; [|by destruct description, required].
  assert (deref (heap w ++ [Some (param_obj (mkParamSpec name "" t true))]) tool_params
          = Some (OList xs)) as Hl'.
  { rewrite deref_app_l; [done|]. by eapply deref_lt. }
  destruct description; try done.
  destruct required; try done.
  simpl. unfold new, list_append, set_heap; simpl.
  rewrite deref_app_l by (by eapply deref_lt). by rewrite Hl.
Qed.

Lemma register_loop_ok params : forall pss h refs cells hooks descs out,
  param_specs params = Ok pss ->
  for_each params (fun '(name, param) => register_tool_param (length h) name param)
           (mkWorld (h ++ Some (OList refs) :: cells) hooks descs out)
  = (Ok tt,
     mkWorld (h ++ Some (OList (refs ++ (Ref <$> seq (length h + 1 + length cells) (length pss))))
                :: (cells ++ ((Some ∘ param_obj) <$> pss)))
             hooks descs out).
Proof.
  induction params as [|[name param] params IH]; intros pss h refs cells hooks descs out Hs.
  - simplify_eq/=. unfold ret. by rewrite !app_nil_r.
  - simpl in Hs. destruct (param_spec name param) as [ps|] eqn:Hps; [|done].
    destruct (param_specs params) as [pss'|] eqn:Hpss; [|done]. simplify_eq.
    simpl. unfold bind at 1.
    rewrite (register_tool_param_spec _ _ _ _ refs), Hps.
    2:{ simpl. replace (length h) with (length h + 0) at 1 by lia. by rewrite deref_app_r. }
    unfold set_heap. simpl.
    rewrite <- app_assoc. simpl. rewrite insert_middle.
    rewrite (IH pss'); [|done].
    rewrite length_app, !length_app. simpl.
    rewrite <- !app_assoc. simpl.
    replace (length h + 1 + (length cells + 1)) with (S (length h + 1 + length cells)) by lia.
    replace (length h + S (length cells)) with (length h + 1 + length cells) by lia.
    done.
Qed.

Lemma register_loop_raise params : forall e h refs cells hooks descs out,
  param_specs params = Raise e ->
  exists refs' cells',
    for_each params (fun '(name, param) => register_tool_param (length h) name param)
             (mkWorld (h ++ Some (OList refs) :: cells) hooks descs out)
    = (Raise e, mkWorld (h ++ Some (OList refs') :: cells') hooks descs out).
Proof.
  induction params as [|[name param] params IH]; intros e h refs cells hooks descs out Hs.
  - done.
  - simpl in Hs. simpl. unfold bind at 1.
    rewrite (register_tool_param_spec _ _ _ _ refs).
    2:{ simpl. replace (length h) with (length h + 0) at 1 by lia. by rewrite deref_app_r. }
    destruct (param_spec name param) as [ps|] eqn:Hps.
    + destruct (param_specs params) as [pss'|] eqn:Hpss; [done|]. simplify_eq.
      unfold set_heap. simpl. rewrite <- app_assoc. simpl. rewrite insert_middle.
      by apply IH.
    + simplify_eq. by exists refs, cells.
Qed.

Section RegisterFacts.
Variable pformat : list (option Obj) -> Slot -> string.

(** [register_tool] refines [describe]: when [describe] yields a descriptor,
    registration succeeds and installs it. *)
Lemma register_tool_describe func td w :
  describe func = Ok td ->
  register_tool pformat func w = (Ok func, install pformat func td w).
Proof.
  unfold describe. intros Hd.
  destruct (getdoc_strip (fn_doc func)) as [desc|] eqn:Hdoc; [|done].
  destruct (param_specs (fn_params func)) as [pss|] eqn:Hpss; [|done]. simplify_eq.
  unfold register_tool. rewrite Hdoc. unfold bind at 1. unfold lift at 1.
  unfold bind at 1. unfold new at 1.
  destruct w as [h hooks descs out]. unfold set_heap; simpl.
  unfold bind at 1.
  rewrite (register_loop_ok _ pss h [] [] hooks descs out Hpss).
  unfold install; simpl.
  unfold bind, new, print, hooks_setitem, descriptions_setitem, ret, set_heap; simpl.
  rewrite !length_app; simpl. rewrite length_fmap, Nat.add_0_r.
  rewrite <- !app_assoc. simpl.
  replace (length h + S (length pss)) with (length h + 1 + length pss) by lia.
  done.
Qed.

(** When [describe] raises, registration raises the same exception and
    touches neither mapping nor the output; the heap only grows. *)
Lemma register_tool_raises func e w :
  describe func = Raise e ->
  exists h', register_tool pformat func w = (Raise e, set_heap (heap w ++ h') w).
Proof.
  unfold describe. intros Hd. unfold register_tool.
  destruct (getdoc_strip (fn_doc func)) as [desc|] eqn:Hdoc.
  - destruct (param_specs (fn_params func)) as [pss|] eqn:Hpss; [done|]. simplify_eq.
    unfold bind at 1. unfold lift at 1. unfold bind at 1. unfold new at 1.
    destruct w as [h hooks descs out]. unfold set_heap; simpl.
    unfold bind at 1.
    destruct (register_loop_raise _ e h [] [] hooks descs out Hpss) as (refs' & cells' & ->).
    by eexists.
  - simplify_eq. exists []. unfold bind, lift, set_heap. rewrite app_nil_r. by destruct w.
Qed.

(** Registration succeeds exactly when [describe] does. *)
Lemma register_tool_inv func w r w' :
  register_tool pformat func w = (Ok r, w') ->
  exists td, describe func = Ok td /\ r = func /\ w' = install pformat func td w.
Proof.
  intros Hr. destruct (describe func) as [td|e] eqn:Hd.
  - rewrite (register_tool_describe _ _ _ Hd) in Hr. exists td. by simplify_eq.
  - destruct (register_tool_raises _ _ w Hd) as [h' Hh]. congruence.
Qed.
End RegisterFacts.

(** ** Reading an installed descriptor *)

Lemma read_param_obj h l ps :
  deref h l = Some (param_obj ps) -> read 1 h (Ref l) = Some (param_data ps).
Proof. intros Hl. simpl. by rewrite Hl. Qed.

Lemma read_param_objs pss pre post :
  mapM (read 1 (pre ++ ((Some ∘ param_obj) <$> pss) ++ post)) (Ref <$> seq (length pre) (length pss))
  = Some (param_data <$> pss).
Proof.
  apply mapM_Some, Forall2_same_length_lookup. split.
  - by rewrite !length_fmap, length_seq.
  - intros i x y Hx Hy.
    rewrite list_lookup_fmap in Hx. rewrite list_lookup_fmap in Hy.
    destruct (seq (length pre) (length pss) !! i) as [a|] eqn:Ha; [|done].
    destruct (pss !! i) as [ps|] eqn:Hps; [|done].
    apply lookup_seq in Ha as [-> Hi]. simplify_eq/=.
    apply read_param_obj. rewrite deref_app_r. apply deref_Some.
    rewrite lookup_app_l by (by rewrite length_fmap).
    by rewrite list_lookup_fmap, Hps.
Qed.

Section InstallFacts.
Variable pformat : list (option Obj) -> Slot -> string.

Lemma install_frame func td w :
  heap w `prefix_of` heap (install pformat func td w).
Proof. by apply prefix_app_r. Qed.

Lemma install_hooks func td w :
  _TOOL_HOOKS (install pformat func td w) = dict_set (td_name td) func (_TOOL_HOOKS w).
Proof. done. Qed.

Lemma install_descriptions func td w :
  _TOOL_DESCRIPTIONS (install pformat func td w)
  = dict_set (td_name td) (Ref (length (heap w) + 1 + length (td_params td)))
             (_TOOL_DESCRIPTIONS w).
Proof. done. Qed.

(** The descriptor object just installed reads as the data of [td]. *)
Lemma install_read func td w :
  read 3 (heap (install pformat func td w))
       (Ref (length (heap w) + 1 + length (td_params td)))
  = Some (descriptor_data td).
Proof.
  unfold install; cbn [heap].
  set (n := length (td_params td)).
  set (cells := (Some ∘ param_obj) <$> td_params td).
  set (tool_def := ODict _).
  set (h' := heap w ++ _).
  assert (deref h' (length (heap w) + 1 + n) = Some tool_def) as Hdef.
  { subst h'. rewrite <- Nat.add_assoc, deref_app_r.
    change (deref (?c :: ?t) (1 + n)) with (deref t n).
    replace n with (length cells + 0) by (subst cells n; rewrite length_fmap; lia).
    by rewrite deref_app_r. }
  assert (deref h' (length (heap w)) = Some (OList (Ref <$> seq (length (heap w) + 1) n))) as Hlist.
  { subst h'. apply deref_middle. }
  assert (mapM (read 1 h') (Ref <$> seq (length (heap w) + 1) n)
          = Some (param_data <$> td_params td)) as Hps.
  { subst h' cells n.
    pose proof (read_param_objs (td_params td)
                  (heap w ++ [Some (OList (Ref <$> seq (length (heap w) + 1) (length (td_params td))))])
                  [Some tool_def]) as H.
    rewrite length_app, <- app_assoc in H. exact H. }
  assert (read 2 h' (Ref (length (heap w))) = Some (DList (param_data <$> td_params td))) as Hl.
  { rewrite read_obj_unfold, Hlist. cbn [mbind option_bind]. unfold read_obj.
    cbn [children]. by rewrite Hps. }
  rewrite read_obj_unfold, Hdef. cbn [mbind option_bind]. unfold read_obj, tool_def.
  cbn [children fmap list_fmap snd].
  assert (mapM (read 2 h') [Imm (VStr (td_name td)); Imm (VStr (td_description td));
                            Ref (length (heap w))]
          = Some [DImm (VStr (td_name td)); DImm (VStr (td_description td));
                  DList (param_data <$> td_params td)]) as ->; [|done].
  apply mapM_Some. repeat constructor. exact Hl.
Qed.
End InstallFacts.

(** ** Reading dictionaries entry by entry *)

Lemma read_obj_dict n h d items :
  read_obj n h (ODict d) = Some (DDict items)
  <-> Forall2 (fun kv kd => kv.1 = kd.1 /\ read n h kv.2 = Some kd.2) d items.
Proof.
  unfold read_obj. cbn [children assemble]. split.
  - destruct (mapM (read n h) d.*2) as [ds|] eqn:Hds; [|done].
    intros ?; simplify_eq/=. apply mapM_Some in Hds.
    revert ds Hds. induction d as [|[k x] d IH]; intros ds Hds.
    + inversion Hds; simplify_eq/=. constructor.
    + inversion Hds; simplify_eq/=. constructor; [done|]. by apply IH.
  - intros HF.
    assert (mapM (read n h) d.*2 = Some items.*2 /\ zip d.*1 items.*2 = items) as [-> Hz].
    { induction HF as [|[k x] [k' dx] d items [Hk Hx] HF [IH1 IH2]]; [done|].
      cbn [fst snd] in Hk, Hx. subst k'. rewrite !fmap_cons. cbn [fst snd]. split.
      - apply mapM_Some. constructor; [done|]. by apply mapM_Some.
      - exact (f_equal (cons (k, dx)) IH2). }
    change (Some (DDict (zip d.*1 items.*2)) = Some (DDict items)). by rewrite Hz.
Qed.

Lemma read_obj_dict_inv n h d r :
  read_obj n h (ODict d) = Some r -> exists items, r = DDict items.
Proof.
  unfold read_obj. destruct (mapM _ _); intros ?; simplify_eq/=. by eexists.
Qed.

Lemma read_obj_dict_set n h k x d dx items :
  read n h x = Some dx ->
  read_obj n h (ODict d) = Some (DDict items) ->
  read_obj n h (ODict (dict_set k x d)) = Some (DDict (dict_set k dx items)).
Proof.
  intros Hx. rewrite !read_obj_dict. intros HF.
  induction HF as [|[k1 x1] [k2 d2] d items [Hk Hr] HF IH]; simpl in *.
  - by repeat constructor.
  - subst k2. destruct (String.eqb k k1); constructor; try done.
Qed.

Lemma read_obj_dict_get n h k x d items :
  read_obj n h (ODict d) = Some (DDict items) ->
  dict_get k d = Some x ->
  exists dx, dict_get k items = Some dx /\ read n h x = Some dx.
Proof.
  rewrite read_obj_dict. intros HF.
  induction HF as [|[k1 x1] [k2 d2] d items [Hk Hr] HF IH]; simpl in *; [done|].
  subst k2. destruct (String.eqb k k1); [|done]. intros [= ->]. by eexists.
Qed.

Lemma read_obj_dict_keys n h d items :
  read_obj n h (ODict d) = Some (DDict items) -> dict_keys items = dict_keys d.
Proof.
  rewrite read_obj_dict. unfold dict_keys. intros HF.
  induction HF as [|[k1 x1] [k2 d2] d items [Hk Hr] HF IH]; [done|].
  cbn [fst snd] in Hk. rewrite !fmap_cons. cbn [fst]. by rewrite IH, Hk.
Qed.

(** ** The catalog *)

Lemma catalog_world0 : catalog world0 = Some (DDict []).
Proof. done. Qed.

Lemma catalog_dict w d : catalog w = Some d -> exists items, d = DDict items.
Proof. apply read_obj_dict_inv. Qed.

Section CatalogFacts.
Variable pformat : list (option Obj) -> Slot -> string.

(** Registration sets the catalog entry of the tool and keeps the others. *)
Lemma catalog_install func td w items :
  catalog w = Some (DDict items) ->
  catalog (install pformat func td w)
  = Some (DDict (dict_set (td_name td) (descriptor_data td) items)).
Proof.
  unfold catalog. intros Hc. rewrite install_descriptions.
  apply read_obj_dict_set; [apply install_read|].
  eapply read_obj_extends; [|exact Hc]. apply extends_prefix, install_frame.
Qed.
End CatalogFacts.

(** ** What [describe] accepts and refuses *)

Lemma param_spec_inv name param ps :
  param_spec name param = Ok ps ->
  ps_name ps = name
  /\ exists typ, annotation param = Annotated typ [VStr (ps_description ps); VBool (ps_required ps)]
                 /\ render_type typ = Ok (ps_type ps).
Proof.
  unfold param_spec. destruct (annotation param) as [| |typ md]; [done..|].
  destruct md as [|a [|b [|c md]]]; try done. simpl.
  destruct (render_type typ) as [t|] eqn:Ht; [|done].
  destruct a; try done. destruct b; try done.
  intros [= <-]. simpl. eauto.
Qed.

Lemma param_specs_inv params : forall pss,
  param_specs params = Ok pss ->
  Forall2 (fun ps p =>
             ps_name ps = p.1
             /\ exists typ, annotation p.2 = Annotated typ [VStr (ps_description ps);
                                                            VBool (ps_required ps)]
                            /\ render_type typ = Ok (ps_type ps))
          pss params.
Proof.
  induction params as [|[name param] params IH]; intros pss Hs; simpl in Hs.
  - simplify_eq. constructor.
  - destruct (param_spec name param) as [ps|] eqn:Hps; [|done].
    destruct (param_specs params) as [pss'|] eqn:Hpss; [|done]. simplify_eq.
    constructor; [by apply param_spec_inv|by apply IH].
Qed.

Lemma param_spec_well name param :
  well_annotated param -> exists ps, param_spec name param = Ok ps.
Proof.
  intros (typ & d & b & t & Ha & Ht). unfold param_spec. rewrite Ha. simpl. rewrite Ht.
  by eexists.
Qed.

Lemma param_specs_well params :
  Forall (fun p => well_annotated p.2) params -> exists pss, param_specs params = Ok pss.
Proof.
  induction 1 as [|[name param] params Hw _ [pss IH]]; [by eexists|].
  destruct (param_spec_well name param Hw) as [ps Hps]. simpl. rewrite Hps, IH. by eexists.
Qed.

Lemma param_specs_app_raise good name param rest pss e :
  param_specs good = Ok pss ->
  param_spec name param = Raise e ->
  param_specs (good ++ (name, param) :: rest) = Raise e.
Proof.
  revert pss. induction good as [|[n p] good IH]; intros pss Hg He; simpl in *.
  - by rewrite He.
  - destruct (param_spec n p); [|done].
    destruct (param_specs good) as [pss'|]; [|done]. by rewrite (IH pss').
Qed.

Section RegistrationTheorems.
Variable pformat : list (option Obj) -> Slot -> string.

(** A failed registration inserts nothing. *)
Lemma register_tool_raise_frame func w e w' :
  register_tool pformat func w = (Raise e, w') ->
  _TOOL_HOOKS w' = _TOOL_HOOKS w /\ _TOOL_DESCRIPTIONS w' = _TOOL_DESCRIPTIONS w
  /\ stdout w' = stdout w /\ heap w `prefix_of` heap w'.
Proof.
  intros Hr. destruct (describe func) as [td|e'] eqn:Hd.
  - by rewrite (register_tool_describe _ _ _ w Hd) in Hr.
  - destruct (register_tool_raises pformat _ _ w Hd) as [h' Hh].
    rewrite Hh in Hr. simplify_eq. simpl. repeat split. by apply prefix_app_r.
Qed.

Lemma describe_rejects func w e : describe func = Raise e -> rejects pformat func w e.
Proof.
  intros Hd. destruct (register_tool_raises pformat _ _ w Hd) as [h' Hh].
  eexists. split; [exact Hh|done].
Qed.

(** C2, as the code has it: a failed registration never inserts an entry
    into either mapping; and when the callable has documentation text and
    its first faulty parameter is [name], registration raises
    [MissingAnnotation] for a parameter without annotation,
    [MalformedAnnotation] for an annotation that is not [Annotated],
    [InvalidDescription] for a description that is not a string and
    [InvalidRequiredFlag] for a flag that is not a boolean, the last two on
    an [Annotated] with two metadata items over a type that renders; an
    [Annotated] with another number of metadata items raises
    [ValueError]. *)
Theorem register_tool_rejection :
  (forall func w e w',
      register_tool pformat func w = (Raise e, w') ->
      _TOOL_HOOKS w' = _TOOL_HOOKS w /\ _TOOL_DESCRIPTIONS w' = _TOOL_DESCRIPTIONS w)
  /\ (forall func w doc good name param rest,
      fn_doc func = Some doc ->
      fn_params func = good ++ (name, param) :: rest ->
      Forall (fun p => well_annotated p.2) good ->
      (annotation param = Empty -> rejects pformat func w (MissingAnnotation name))
      /\ (forall t, annotation param = Plain t ->
          rejects pformat func w (MalformedAnnotation name))
      /\ (forall typ md, annotation param = Annotated typ md -> length md <> 2 ->
          exists msg, rejects pformat func w (ValueError msg))
      /\ (forall typ t d r, annotation param = Annotated typ [d; r] ->
          render_type typ = Ok t -> isinstance_str d = false ->
          rejects pformat func w (InvalidDescription name))
      /\ (forall typ t d r, annotation param = Annotated typ [d; r] ->
          render_type typ = Ok t -> isinstance_str d = true -> isinstance_bool r = false ->
          rejects pformat func w (InvalidRequiredFlag name))).
Proof.
  split.
  { intros func w e w' Hr. by destruct (register_tool_raise_frame _ _ _ _ Hr) as (? & ? & _). }
  intros func w doc good name param rest Hdoc Hparams Hgood.
  destruct (param_specs_well _ Hgood) as [pss Hpss].
  assert (forall e, param_spec name param = Raise e -> rejects pformat func w e) as Hrej.
  { intros e He. apply describe_rejects. unfold describe. rewrite Hdoc, Hparams. simpl.
    by rewrite (param_specs_app_raise _ _ _ _ _ _ Hpss He). }
  repeat split.
  - intros Ha. apply Hrej. unfold param_spec. by rewrite Ha.
  - intros t Ha. apply Hrej. unfold param_spec. by rewrite Ha.
  - intros typ md Ha Hlen.
    assert (exists msg, unpack2 md = Raise (ValueError msg)) as [msg Hmsg].
    { destruct md as [|a [|b [|c md]]]; try done; by eexists. }
    exists msg. apply Hrej. unfold param_spec. by rewrite Ha, Hmsg.
  - intros typ t d r Ha Ht Hd. apply Hrej. unfold param_spec. rewrite Ha. simpl. rewrite Ht.
    by destruct d.
  - intros typ t d r Ha Ht Hd Hr. apply Hrej. unfold param_spec. rewrite Ha. simpl. rewrite Ht.
    destruct d; try done. by destruct r.
Qed.

(** C4: after a successful registration the descriptor stored under the
    callable's name holds the name, a description and a parameter list
    with one entry per declared parameter, in declaration order; each
    entry holds the parameter's name, the description string and the
    boolean flag of its annotation, and the rendering of its type, the
    first three as strings and the flag as a boolean. *)
Theorem register_tool_descriptor func w r w' :
  register_tool pformat func w = (Ok r, w') ->
  exists l desc pss,
    dict_get (fn_name func) (_TOOL_DESCRIPTIONS w') = Some (Ref l)
    /\ read 3 (heap w') (Ref l)
       = Some (DDict [("name", DImm (VStr (fn_name func)));
                      ("description", DImm (VStr desc));
                      ("params", DList (param_data <$> pss))])
    /\ length pss = length (fn_params func)
    /\ Forall2 (fun ps p =>
                  ps_name ps = p.1
                  /\ exists typ,
                      annotation p.2 = Annotated typ [VStr (ps_description ps);
                                                      VBool (ps_required ps)]
                      /\ render_type typ = Ok (ps_type ps))
               pss (fn_params func).
Proof.
  intros Hr. destruct (register_tool_inv _ _ _ _ _ Hr) as (td & Hd & -> & ->).
  unfold describe in Hd.
  destruct (getdoc_strip (fn_doc func)) as [desc|]; [|done].
  destruct (param_specs (fn_params func)) as [pss|] eqn:Hpss; [|done]. simplify_eq.
  eexists _, desc, pss. split; [|split; [|split]].
  - rewrite install_descriptions. apply dict_get_set_eq.
  - apply (install_read pformat func (mkToolDescriptor (fn_name func) desc pss) w).
  - eapply Forall2_length, param_specs_inv, Hpss.
  - by apply param_specs_inv.
Qed.
End RegistrationTheorems.

Section DescriptionTheorems.
Variable pformat : list (option Obj) -> Slot -> string.

(** C5, as the code has it: the stored description is the callable's
    documentation text with the whitespace at both ends removed; with the
    documentation text absent, registration raises [AttributeError] and
    inserts nothing; a documentation text that is present is never refused,
    even when nothing is left of it after trimming. *)
Theorem register_tool_description func w :
  (forall doc, fn_doc func = Some doc ->
     (exists l r,
         doc = l +:+ PyStr.strip doc +:+ r /\ PyStr.blank l = true /\ PyStr.blank r = true)
     /\ (forall c, PyStr.first (PyStr.strip doc) = Some c -> PyStr.isspace c = false)
     /\ (forall c, PyStr.last (PyStr.strip doc) = Some c -> PyStr.isspace c = false)
     /\ (forall r w',
           register_tool pformat func w = (Ok r, w') ->
           exists l params,
             dict_get (fn_name func) (_TOOL_DESCRIPTIONS w') = Some (Ref l)
             /\ read 3 (heap w') (Ref l)
                = Some (DDict [("name", DImm (VStr (fn_name func)));
                               ("description", DImm (VStr (PyStr.strip doc)));
                               ("params", params)]))
     /\ (Forall (fun p => well_annotated p.2) (fn_params func) ->
         exists w', register_tool pformat func w = (Ok func, w')))
  /\ (fn_doc func = None -> exists msg, rejects pformat func w (AttributeError msg)).
Proof.
  split.
  - intros doc Hdoc. destruct (strip_spec doc) as (Hsplit & Hfirst & Hlast).
    split; [done|]. split; [done|]. split; [done|]. split.
    + intros r w' Hr. destruct (register_tool_inv _ _ _ _ _ Hr) as (td & Hd & -> & ->).
      unfold describe in Hd. rewrite Hdoc in Hd. simpl in Hd.
      destruct (param_specs (fn_params func)) as [pss|]; [|done]. simplify_eq.
      eexists _, _. split.
      * rewrite install_descriptions. apply dict_get_set_eq.
      * apply (install_read pformat func (mkToolDescriptor (fn_name func) (PyStr.strip doc) pss) w).
    + intros Hw. destruct (param_specs_well _ Hw) as [pss Hpss].
      eexists. apply register_tool_describe. unfold describe. by rewrite Hdoc, Hpss.
  - intros Hdoc. eexists. apply describe_rejects. unfold describe. by rewrite Hdoc.
Qed.

(** C8: in every state in which a name is present in both mappings,
    whatever was registered before and after it, registering a callable of
    that name succeeds whenever the callable can be registered at all, and
    afterwards both mappings hold this callable under the name: the
    invocable is the callable, the descriptor is the one built from it, the
    names and their order are as before and every other entry is
    untouched. *)
Theorem register_tool_last_wins f1 f2 w1 x1 :
  dict_get (fn_name f2) (_TOOL_HOOKS w1) = Some f1 ->
  dict_get (fn_name f2) (_TOOL_DESCRIPTIONS w1) = Some x1 ->
  (exists w0 r0 w0', register_tool pformat f2 w0 = (Ok r0, w0')) ->
  exists w2 l td,
    register_tool pformat f2 w1 = (Ok f2, w2)
    /\ dict_get (fn_name f2) (_TOOL_HOOKS w2) = Some f2
    /\ describe f2 = Ok td
    /\ dict_get (fn_name f2) (_TOOL_DESCRIPTIONS w2) = Some (Ref l)
    /\ read 3 (heap w2) (Ref l) = Some (descriptor_data td)
    /\ dict_keys (_TOOL_HOOKS w2) = dict_keys (_TOOL_HOOKS w1)
    /\ dict_keys (_TOOL_DESCRIPTIONS w2) = dict_keys (_TOOL_DESCRIPTIONS w1)
    /\ (forall k, k <> fn_name f2 ->
        dict_get k (_TOOL_HOOKS w2) = dict_get k (_TOOL_HOOKS w1)
        /\ dict_get k (_TOOL_DESCRIPTIONS w2) = dict_get k (_TOOL_DESCRIPTIONS w1)).
Proof.
  intros Hhook Hdesc (w0 & r0 & w0' & H2).
  destruct (register_tool_inv _ _ _ _ _ H2) as (td & Hd & _ & _).
  assert (td_name td = fn_name f2) as Hn2.
  { unfold describe in Hd. destruct (getdoc_strip _); [|done].
    destruct (param_specs _); by simplify_eq. }
  eexists _, _, td. split; [by apply register_tool_describe|].
  rewrite !install_hooks, !install_descriptions, Hn2.
  repeat split.
  - apply dict_get_set_eq.
  - done.
  - apply dict_get_set_eq.
  - apply (install_read pformat f2 td w1).
  - rewrite dict_keys_set.
    assert (dict_contains (fn_name f2) (_TOOL_HOOKS w1) = true) as ->; [|done].
    apply dict_contains_get. by eexists.
  - rewrite dict_keys_set.
    assert (dict_contains (fn_name f2) (_TOOL_DESCRIPTIONS w1) = true) as ->; [|done].
    apply dict_contains_get. by eexists.
  - by apply dict_get_set_ne.
  - by apply dict_get_set_ne.
Qed.
End DescriptionTheorems.


(** * Reachability *)

Lemma mapM_read_elem n h xs ds x :
  mapM (read n h) xs = Some ds -> x ∈ xs -> exists d, read n h x = Some d.
Proof.
  intros Hm Hx. apply mapM_Some in Hm.
  induction Hm as [|x' d' xs ds Hr Hm IH]; [by apply elem_of_nil in Hx|].
  apply elem_of_cons in Hx as [->|Hx]; [by eexists|by apply IH].
Qed.

Lemma read_Ref_inv k h l d :
  read k h (Ref l) = Some d ->
  exists k' o ds, k = S k' /\ deref h l = Some o
                  /\ mapM (read k' h) (children o) = Some ds /\ d = assemble o ds.
Proof.
  destruct k as [|k']; [done|]. simpl.
  destruct (deref h l) as [o|]; [|done].
  destruct (mapM (read k' h) (children o)) as [ds|] eqn:Hds; [|done].
  intros [= <-]. by eexists _, _, _.
Qed.

(** What can be read at some depth can be read, at that depth, from every
    object it reaches. *)
Lemma reach_read h x l : reach h x l -> forall k d, read k h x = Some d ->
  exists d', read k h (Ref l) = Some d'.
Proof.
  induction 1 as [l|l o x l' Ho Hx Hreach IH]; intros k d Hr; [by eexists|].
  apply read_Ref_inv in Hr as (k' & o' & ds & -> & Ho' & Hds & ->). simplify_eq.
  destruct (mapM_read_elem _ _ _ _ _ Hds Hx) as [dx Hdx].
  destruct (IH _ _ Hdx) as [d' Hd']. exists d'. eapply read_mono; [|exact Hd']. lia.
Qed.

(** A structure that can be read holds no cycle. *)
Lemma read_no_cycle h l o x : deref h l = Some o -> x ∈ children o -> reach h x l ->
  forall k d, read k h (Ref l) = Some d -> False.
Proof.
  intros Ho Hx Hreach k. induction k as [|k IH]; intros d Hr; [done|].
  apply read_Ref_inv in Hr as (k' & o' & ds & [= <-] & Ho' & Hds & ->). simplify_eq.
  destruct (mapM_read_elem _ _ _ _ _ Hds Hx) as [dx Hdx].
  destruct (reach_read _ _ _ Hreach _ _ Hdx) as [d' Hd']. by eapply IH.
Qed.

(** Every object reached by a successful read exists. *)
Lemma reach_valid h x l k d : reach h x l -> read k h x = Some d -> l < length h.
Proof.
  intros Hreach Hr. destruct (reach_read _ _ _ Hreach _ _ Hr) as [d' Hd'].
  apply read_Ref_inv in Hd' as (k' & o & ds & -> & Ho & _). by eapply deref_lt.
Qed.

Lemma reach_fresh b h x l : closed_above b h -> fresh_slot b x -> reach h x l -> b <= l.
Proof.
  intros Hcl Hx Hreach. induction Hreach as [l|l o x l' Ho Hin Hreach IH]; [done|].
  apply IH. specialize (Hcl l o Hx Ho). rewrite Forall_forall in Hcl. by apply Hcl.
Qed.

Lemma agree_slot_extends h0 h h' x y :
  extends h h' -> agree_slot h0 h x y -> agree_slot h0 h' x y.
Proof. intros He Ha k d Hr. eapply read_extends; [exact He|]. by apply Ha. Qed.

Lemma agree_slot_Imm h0 h v : agree_slot h0 h (Imm v) (Imm v).
Proof. intros k d. by destruct k. Qed.

(** ** Rebuilding an object from copied slots *)

Lemma children_rebuild o ys : length ys = length (children o) -> children (rebuild o ys) = ys.
Proof.
  destruct o as [kvs|xs]; simpl; [|done].
  rewrite length_fmap. intros Hl. apply snd_zip. rewrite length_fmap. lia.
Qed.

Lemma assemble_rebuild o ys ds :
  length ys = length (children o) -> assemble (rebuild o ys) ds = assemble o ds.
Proof.
  destruct o as [kvs|xs]; simpl; [|done].
  rewrite length_fmap. intros Hl. f_equal. f_equal. apply fst_zip. rewrite length_fmap. lia.
Qed.

Lemma Forall_children_rebuild (P : Slot -> Prop) o ys :
  Forall P ys -> Forall P (children (rebuild o ys)).
Proof.
  destruct o as [kvs|xs]; simpl; [|done].
  generalize (kvs.*1). intros ks HP. revert ks.
  induction HP as [|y ys Hy HP IH]; intros [|k ks]; simpl; try constructor; done.
Qed.

(** Storing the rebuilt object in its reserved cell gives a copy that reads
    as the source does. *)
Lemma fill_agree h0 h' y o ys :
  h' !! y = Some None ->
  Forall2 (agree_slot h0 h') (children o) ys ->
  forall k d, read_obj k h0 o = Some d ->
              read (S k) (<[y := Some (rebuild o ys)]> h') (Ref y) = Some d.
Proof.
  intros Hy HF k d Hr. unfold read_obj in Hr.
  destruct (mapM (read k h0) (children o)) as [ds|] eqn:Hds; [|done].
  cbn [fmap option_fmap option_map] in Hr. simplify_eq.
  rewrite read_obj_unfold, deref_insert_eq by (by eapply lookup_lt_Some).
  cbn [mbind option_bind]. unfold read_obj.
  pose proof (Forall2_length _ _ _ HF) as Hlen.
  rewrite children_rebuild by done.
  assert (mapM (read k (<[y := Some (rebuild o ys)]> h')) ys = Some ds) as ->.
  2:{ cbn [fmap option_fmap option_map]. by rewrite assemble_rebuild. }
  apply mapM_Some. apply mapM_Some in Hds.
  pose proof (extends_fill h' y (rebuild o ys) Hy) as Hext.
  revert Hext. generalize (<[y := Some (rebuild o ys)]> h'). intros hf Hext.
  revert ds Hds. clear Hlen. induction HF as [|x y' xs ys Ha HF IH]; intros ds Hds.
  - inversion Hds. constructor.
  - inversion Hds as [|? d' ? ds' Hx Hxs]; simplify_eq. constructor; [|by apply IH].
    eapply read_extends; [exact Hext|]. by apply Ha.
Qed.

(** * Correctness of [deepcopy] *)

Section CopyCorrect.
Variable h0 : list (option Obj).

Lemma copy_seq_copied n copy :
  (forall x memo h d, read n h0 x = Some d -> extends h0 h -> memo_ok h0 h memo x ->
                      copied h0 x memo h (copy x memo h)) ->
  forall xs memo h ds,
    mapM (read n h0) xs = Some ds -> extends h0 h ->
    (forall x, x ∈ xs -> memo_ok h0 h memo x) ->
    copied_seq h0 xs memo h (copy_seq copy xs memo h).
Proof.
  intros Hcopy xs. induction xs as [|x xs IH]; intros memo h ds Hds Hext Hmemo.
  - exists [], memo, h. repeat split; try done. intros l l' H1 H2. congruence.
  - apply mapM_Some in Hds. inversion Hds as [|? d ? ds' Hx Hxs]; simplify_eq.
    destruct (Hcopy x memo h d Hx Hext) as (y & m1 & h1 & Hc & Hp1 & Hs1 & Ha1 & Hn1).
    { apply Hmemo. by left. }
    assert (extends h h1) as He1 by (by apply extends_prefix).
    destruct (IH m1 h1 ds') as (ys & m2 & h2 & Hc2 & Hp2 & Hs2 & Ha2 & Hn2).
    { by apply mapM_Some. }
    { by eapply extends_trans. }
    { intros x' Hx' l l' Hl Hreach. destruct (memo !! l) as [l''|] eqn:Hml.
      - assert (l'' = l') as -> by (pose proof (lookup_weaken _ _ _ _ Hml Hs1); congruence).
        eapply agree_slot_extends; [exact He1|]. eapply Hmemo; [by right|done..].
      - by apply Hn1. }
    assert (extends h1 h2) as He2 by (by apply extends_prefix).
    exists (y :: ys), m2, h2. simpl. rewrite Hc, Hc2. repeat split.
    + by etrans.
    + by etrans.
    + constructor; [|done]. by eapply agree_slot_extends.
    + intros l l' Hl Hml. destruct (m1 !! l) as [l''|] eqn:Hm1.
      * assert (l'' = l') as -> by (pose proof (lookup_weaken _ _ _ _ Hm1 Hs2); congruence).
        eapply agree_slot_extends; [exact He2|]. by apply Hn1.
      * by apply Hn2.
Qed.

(** Reserving a cell, copying the children and storing the rebuilt object
    yields a finished copy. *)
Lemma fill_copied n copy o memo h d :
  (forall x memo h d, read n h0 x = Some d -> extends h0 h -> memo_ok h0 h memo x ->
                      copied h0 x memo h (copy x memo h)) ->
  read_obj n h0 o = Some d -> extends h0 h ->
  (forall x, x ∈ children o -> memo_ok h0 (h ++ [None]) memo x) ->
  exists ys memo' h',
    copy_seq copy (children o) memo (h ++ [None]) = Ok (ys, memo', h')
    /\ h `prefix_of` <[length h := Some (rebuild o ys)]> h'
    /\ extends h' (<[length h := Some (rebuild o ys)]> h')
    /\ memo ⊆ memo'
    /\ (forall k d', read_obj k h0 o = Some d' ->
        read (S k) (<[length h := Some (rebuild o ys)]> h') (Ref (length h)) = Some d')
    /\ (forall l l', memo' !! l = Some l' -> memo !! l = None ->
        agree_slot h0 (<[length h := Some (rebuild o ys)]> h') (Ref l) (Ref l')).
Proof.
  intros Hcopy Hr Hext Hmemo. unfold read_obj in Hr.
  destruct (mapM (read n h0) (children o)) as [ds|] eqn:Hds; [|done].
  destruct (copy_seq_copied n copy Hcopy (children o) memo (h ++ [None]) ds Hds)
    as (ys & memo' & h' & Hc & Hp & Hs & Ha & Hn).
  { eapply extends_trans; [exact Hext|apply extends_app]. }
  { done. }
  assert (h' !! length h = Some None) as Hcell.
  { eapply prefix_lookup_Some; [|exact Hp]. by rewrite list_lookup_middle. }
  pose proof (extends_fill h' (length h) (rebuild o ys) Hcell) as Hfill.
  exists ys, memo', h'. repeat split; try done.
  - apply prefix_insert_ge; [|done]. etrans; [|exact Hp]. by apply prefix_app_r.
  - intros k d'. by apply fill_agree.
  - intros l l' Hl Hml. eapply agree_slot_extends; [exact Hfill|]. by apply Hn.
Qed.

Lemma deepcopy_copied n : forall x memo h d,
  read n h0 x = Some d -> extends h0 h -> memo_ok h0 h memo x ->
  copied h0 x memo h (deepcopy n x memo h).
Proof.
  induction n as [|n IH]; intros [v|l] memo h d Hr Hext Hmemo.
  - exists (Imm v), memo, h. repeat split; try done; [apply agree_slot_Imm|congruence].
  - done.
  - exists (Imm v), memo, h. repeat split; try done; [apply agree_slot_Imm|congruence].
  - simpl. destruct (memo !! l) as [l'|] eqn:Hml.
    { exists (Ref l'), memo, h. repeat split; try done; [|congruence].
      apply (Hmemo l l' Hml). constructor. }
    pose proof Hr as Hr'.
    apply read_Ref_inv in Hr' as (k' & o & ds & [= <-] & Ho & Hds & ->).
    rewrite (Hext _ _ Ho).
    destruct (fill_copied n (deepcopy n) o (<[l := length h]> memo) h (assemble o ds) IH)
      as (ys & memo' & h' & Hc & Hp & Hfill & Hs & Hread & Hn); [| done |  |].
    { unfold read_obj. by rewrite Hds. }
    { intros x Hx l2 l2' Hl2 Hreach.
      destruct (decide (l = l2)) as [<-|Hne].
      - exfalso. by eapply (read_no_cycle h0 l o x Ho Hx Hreach).
      - rewrite lookup_insert_ne in Hl2 by done.
        eapply agree_slot_extends; [apply extends_app|].
        apply (Hmemo l2 l2' Hl2). by eapply reach_child. }
    rewrite Hc. eexists _, _, _. split; [done|]. repeat split.
    + done.
    + etrans; [|exact Hs]. by apply insert_subseteq.
    + intros k d' Hk. apply read_Ref_inv in Hk as (k2 & o2 & ds2 & -> & Ho2 & Hds2 & ->).
      simplify_eq. apply Hread. unfold read_obj. by rewrite Hds2.
    + intros l2 l2' Hl2 Hml2. destruct (decide (l = l2)) as [<-|Hne].
      * assert (l2' = length h) as ->.
        { pose proof (lookup_weaken _ _ l (length h) (lookup_insert_eq _ _ _) Hs). congruence. }
        intros k d' Hk. apply read_Ref_inv in Hk as (k2 & o2 & ds2 & -> & Ho2 & Hds2 & ->).
        simplify_eq. apply Hread. unfold read_obj. by rewrite Hds2.
      * apply Hn; [done|]. by rewrite lookup_insert_ne.
Qed.
End CopyCorrect.

(** ** Copies are made of new objects *)

Lemma closed_above_reserve b h : closed_above b h -> closed_above b (h ++ [None]).
Proof.
  intros Hcl l o Hl Ho. apply (Hcl l o Hl).
  apply deref_Some in Ho. apply deref_Some.
  destruct (decide (l < length h)) as [Hlt|Hge]; [by rewrite lookup_app_l in Ho|].
  rewrite lookup_app_r in Ho by lia.
  by destruct (l - length h) as [|[|?]].
Qed.

Lemma closed_above_fill b h y o :
  closed_above b h -> Forall (fresh_slot b) (children o) ->
  closed_above b (<[y := Some o]> h).
Proof.
  intros Hcl Ho l o' Hl Ho'. destruct (decide (y = l)) as [->|Hne].
  - destruct (decide (l < length h)) as [Hlt|Hge].
    + rewrite deref_insert_eq in Ho' by done. by simplify_eq.
    + rewrite list_insert_ge in Ho' by lia. by apply (Hcl l o').
  - rewrite deref_insert_ne in Ho' by done. by apply (Hcl l o').
Qed.

Section CopyFresh.
Variable b : nat.

Lemma copy_seq_fresh copy :
  (forall x memo h y memo' h',
      copy x memo h = Ok (y, memo', h') ->
      b <= length h -> fresh_memo b memo -> closed_above b h ->
      fresh_slot b y /\ fresh_memo b memo' /\ closed_above b h' /\ length h <= length h') ->
  forall xs memo h ys memo' h',
    copy_seq copy xs memo h = Ok (ys, memo', h') ->
    b <= length h -> fresh_memo b memo -> closed_above b h ->
    Forall (fresh_slot b) ys /\ fresh_memo b memo' /\ closed_above b h' /\ length h <= length h'.
Proof.
  intros Hcopy xs. induction xs as [|x xs IH]; intros memo h ys memo' h' Hc Hb Hm Hcl.
  - simpl in Hc. by simplify_eq.
  - simpl in Hc. destruct (copy x memo h) as [[[y m1] h1]|] eqn:H1; [|done].
    destruct (copy_seq copy xs m1 h1) as [[[ys' m2] h2]|] eqn:H2; [|done]. simplify_eq.
    destruct (Hcopy _ _ _ _ _ _ H1 Hb Hm Hcl) as (Hy & Hm1 & Hcl1 & Hlen1).
    destruct (IH _ _ _ _ _ H2) as (Hys & Hm2 & Hcl2 & Hlen2); [lia|done..|].
    repeat split; [by constructor|done..|lia].
Qed.

Lemma deepcopy_fresh n : forall x memo h y memo' h',
  deepcopy n x memo h = Ok (y, memo', h') ->
  b <= length h -> fresh_memo b memo -> closed_above b h ->
  fresh_slot b y /\ fresh_memo b memo' /\ closed_above b h' /\ length h <= length h'.
Proof.
  induction n as [|n IH]; intros [v|l] memo h y memo' h' Hc Hb Hm Hcl; simpl in Hc.
  - by simplify_eq.
  - destruct (memo !! l) as [l'|] eqn:Hl; [|done]. simplify_eq. repeat split; try done.
    by apply (Hm l).
  - by simplify_eq.
  - destruct (memo !! l) as [l'|] eqn:Hl.
    { simplify_eq. repeat split; try done. by apply (Hm l). }
    destruct (deref h l) as [o|] eqn:Ho; [|done].
    destruct (copy_seq (deepcopy n) (children o) (<[l := length h]> memo) (h ++ [None]))
      as [[[ys m1] h1]|] eqn:Hseq; [|done]. simplify_eq.
    destruct (copy_seq_fresh (deepcopy n) IH _ _ _ _ _ _ Hseq) as (Hys & Hm1 & Hcl1 & Hlen1).
    { rewrite length_app. lia. }
    { intros l1 l1' Hl1. destruct (decide (l = l1)) as [->|Hne].
      - rewrite lookup_insert_eq in Hl1. by simplify_eq.
      - rewrite lookup_insert_ne in Hl1 by done. by apply (Hm l1). }
    { by apply closed_above_reserve. }
    rewrite length_app in Hlen1. simpl in Hlen1.
    repeat split; [done..| |rewrite length_insert; lia].
    apply closed_above_fill; [done|]. by apply Forall_children_rebuild.
Qed.
End CopyFresh.

(** * The catalog exporter *)

(** [get_tools] in a state whose catalog can be read. *)
Lemma get_tools_spec w d :
  catalog w = Some d ->
  exists h',
    get_tools w = (Ok (Ref (length (heap w))), set_heap h' w)
    /\ heap w `prefix_of` h'
    /\ read 4 h' (Ref (length (heap w))) = Some d
    /\ (forall l, reach h' (Ref (length (heap w))) l -> length (heap w) <= l).
Proof.
  intros Hcat. unfold catalog in Hcat. unfold get_tools.
  set (registry := ODict (_TOOL_DESCRIPTIONS w)) in *.
  destruct (fill_copied (heap w) recursion_limit (deepcopy recursion_limit) registry ∅
              (heap w) d) as (ys & memo' & h' & Hc & Hp & Hfill & Hs & Hread & Hn).
  { apply deepcopy_copied. }
  { eapply read_obj_mono; [|exact Hcat]. unfold recursion_limit. lia. }
  { apply extends_refl. }
  { intros x Hx l l' Hl. by rewrite lookup_empty in Hl. }
  rewrite Hc. eexists. split; [done|]. split; [done|]. split.
  - apply (read_mono 4 4); [done|]. by apply Hread.
  - destruct (copy_seq_fresh (length (heap w)) (deepcopy recursion_limit)
                (deepcopy_fresh (length (heap w)) recursion_limit) _ _ _ _ _ _ Hc)
      as (Hys & Hm1 & Hcl1 & Hlen1).
    { rewrite length_app. lia. }
    { intros l l' Hl. by rewrite lookup_empty in Hl. }
    { apply closed_above_reserve. intros l o Hl Ho. apply deref_lt in Ho. lia. }
    intros l. apply reach_fresh; [|simpl; lia].
    apply closed_above_fill; [done|]. by apply Forall_children_rebuild.
Qed.

(** Below an extension, nothing new is reached from a structure that could
    be read before. *)
Lemma reach_extends_inv h h' x l :
  extends h h' -> reach h' x l -> forall k d, read k h x = Some d -> reach h x l.
Proof.
  intros Hext. induction 1 as [l|l o x l' Ho Hx Hreach IH]; intros k d Hr; [constructor|].
  apply read_Ref_inv in Hr as (k' & o' & ds & -> & Ho' & Hds & ->).
  rewrite (Hext _ _ Ho') in Ho. simplify_eq.
  destruct (mapM_read_elem _ _ _ _ _ Hds Hx) as [dx Hdx].
  eapply reach_child; [done..|]. by eapply IH.
Qed.

Lemma mutation_prefix b h0 h h' :
  length h0 <= b -> h0 `prefix_of` h -> rtc (mutation b) h h' -> h0 `prefix_of` h'.
Proof.
  intros Hb Hp Hm. induction Hm as [h|h h1 h2 Hstep _ IH]; [done|].
  apply IH. destruct Hstep as [h l o Hl|h o Hl].
  - apply prefix_insert_ge; [done|lia].
  - etrans; [exact Hp|]. by apply prefix_app_r.
Qed.

Lemma get_tools_frame w r w' :
  get_tools w = (r, w') ->
  _TOOL_HOOKS w' = _TOOL_HOOKS w /\ _TOOL_DESCRIPTIONS w' = _TOOL_DESCRIPTIONS w
  /\ stdout w' = stdout w.
Proof.
  unfold get_tools. destruct (copy_seq _ _ _ _) as [[[ys memo] h']|]; by intros [= <- <-].
Qed.

(** [get_tools] does not look at the invocables or at the output. *)
Lemma get_tools_hooks w r w' hooks out :
  get_tools w = (r, w') ->
  get_tools (mkWorld (heap w) hooks (_TOOL_DESCRIPTIONS w) out)
  = (r, mkWorld (heap w') hooks (_TOOL_DESCRIPTIONS w) out).
Proof.
  unfold get_tools. simpl.
  destruct (copy_seq _ _ _ _) as [[[ys memo] h']|]; by intros [= <- <-].
Qed.

(** C7: in a state whose catalog reads as [d], [get_tools] returns a
    reference to a new dictionary that reads as [d]; every object reachable
    from it is new, every object reachable from the registry is old, so the
    two share nothing; the call changes neither mapping, does not depend on
    the invocables, and keeps every object the heap had.  Whatever is then
    stored into objects at or above the frontier, where the whole snapshot
    lives, or allocated, the catalog still reads as [d] and the next
    [get_tools] returns a snapshot that reads as [d]. *)
Theorem get_tools_snapshot w d :
  catalog w = Some d ->
  exists r w',
    get_tools w = (Ok r, w')
    /\ _TOOL_HOOKS w' = _TOOL_HOOKS w
    /\ _TOOL_DESCRIPTIONS w' = _TOOL_DESCRIPTIONS w
    /\ heap w `prefix_of` heap w'
    /\ read 4 (heap w') r = Some d
    /\ catalog w' = Some d
    /\ (forall l, reach (heap w') r l -> length (heap w) <= l)
    /\ (forall x l, x ∈ (_TOOL_DESCRIPTIONS w).*2 -> reach (heap w') x l -> l < length (heap w))
    /\ (forall hooks out,
          get_tools (mkWorld (heap w) hooks (_TOOL_DESCRIPTIONS w) out)
          = (Ok r, mkWorld (heap w') hooks (_TOOL_DESCRIPTIONS w) out))
    /\ (forall h'',
          rtc (mutation (length (heap w))) (heap w') h'' ->
          catalog (set_heap h'' w') = Some d
          /\ exists r2 w2,
              get_tools (set_heap h'' w') = (Ok r2, w2)
              /\ read 4 (heap w2) r2 = Some d).
Proof.
  intros Hcat. destruct (get_tools_spec w d Hcat) as (h' & Hget & Hp & Hread & Hnew).
  exists (Ref (length (heap w))), (set_heap h' w).
  split; [done|]. split; [done|]. split; [done|]. split; [done|]. split; [done|].
  assert (forall h'', heap w `prefix_of` h'' -> catalog (set_heap h'' w) = Some d) as Hkeep.
  { intros h'' Hp''. unfold catalog in *. simpl.
    eapply read_obj_extends; [|exact Hcat]. by apply extends_prefix. }
  split; [by apply Hkeep|]. split; [done|]. split; [|split].
  - intros x l Hx Hreach. simpl in Hreach.
    unfold catalog, read_obj in Hcat. cbn [children] in Hcat.
    destruct (mapM (read 3 (heap w)) (_TOOL_DESCRIPTIONS w).*2) as [ds|] eqn:Hds; [|done].
    destruct (mapM_read_elem _ _ _ _ _ Hds Hx) as [dx Hdx].
    eapply reach_valid; [|exact Hdx].
    eapply reach_extends_inv; [|exact Hreach|exact Hdx]. by apply extends_prefix.
  - intros hooks out. by apply (get_tools_hooks w _ _ hooks out) in Hget.
  - intros h'' Hmut. simpl in Hmut.
    assert (heap w `prefix_of` h'') as Hp'' by (by eapply mutation_prefix).
    assert (catalog (set_heap h'' (set_heap h' w)) = Some d) as Hcat'' by (by apply Hkeep).
    split; [done|].
    destruct (get_tools_spec _ d Hcat'') as (h3 & Hget3 & _ & Hread3 & _).
    by eexists _, _.
Qed.

(** C9: two [get_tools] calls, with any calls other than registrations in
    between, return snapshots that read as the same data. *)
Theorem get_tools_idempotent format_exc pformat w d calls :
  catalog w = Some d ->
  Forall (fun c => forall func, c <> CallRegister func) calls ->
  exists r1 w1 r2 w2,
    get_tools w = (Ok r1, w1)
    /\ get_tools (run format_exc pformat calls w1) = (Ok r2, w2)
    /\ r1 <> r2
    /\ read 4 (heap w2) r1 = Some d
    /\ read 4 (heap w2) r2 = Some d.
Proof.
  intros Hcat Hcalls.
  destruct (get_tools_spec w d Hcat) as (h1 & Hget1 & Hp1 & Hread1 & _).
  set (w1 := set_heap h1 w) in *.
  assert (catalog w1 = Some d) as Hcat1.
  { unfold catalog in *. eapply read_obj_extends; [|exact Hcat]. by apply extends_prefix. }
  assert (catalog (run format_exc pformat calls w1) = Some d
          /\ heap w1 `prefix_of` heap (run format_exc pformat calls w1)) as [Hcat2 Hp2].
  { clearbody w1. clear Hget1 Hread1 Hp1 Hcat. revert w1 Hcat1.
    induction Hcalls as [|c calls Hc _ IH]; intros w1 Hcat1; [done|].
    simpl.
    assert (catalog (step format_exc pformat c w1) = Some d
            /\ heap w1 `prefix_of` heap (step format_exc pformat c w1)) as [Hs Hps].
    { destruct c as [func|tool_name tool_params|]; simpl.
      - by destruct (Hc func).
      - by rewrite (dispatch_tool_frame format_exc w1 tool_name tool_params).
      - destruct (get_tools_spec w1 d Hcat1) as (h2 & -> & Hp & _). simpl. split; [|done].
        unfold catalog in *. eapply read_obj_extends; [|exact Hcat1]. by apply extends_prefix. }
    destruct (IH _ Hs) as [Hr Hpr]. split; [done|]. by etrans. }
  destruct (get_tools_spec _ d Hcat2) as (h2 & Hget2 & Hp3 & Hread2 & _).
  eexists _, _, _, _. split; [done|]. split; [done|]. split; [|split].
  - intros [= Heq]. apply prefix_length in Hp2. simpl in Hp2.
    assert (length (heap w) < length h1); [|lia].
    pose proof Hread1 as Hr.
    apply read_Ref_inv in Hr as (k' & o & ds & _ & Ho & _). by eapply deref_lt.
  - cbn [heap set_heap]. eapply read_extends; [|exact Hread1]. apply extends_prefix. by etrans.
  - done.
Qed.

(** * The module as a whole *)

Lemma dict_keys_set_lockstep {V W : Type} (d1 : list (string * V)) (d2 : list (string * W)) k v1 v2 :
  dict_keys d1 = dict_keys d2 ->
  dict_keys (dict_set k v1 d1) = dict_keys (dict_set k v2 d2).
Proof.
  intros Hk. rewrite !dict_keys_set, (dict_contains_keys d1 d2 k Hk), Hk. done.
Qed.

Section ModuleTheorems.
Variable format_exc : PyExc -> string.
Variable pformat : list (option Obj) -> Slot -> string.

(** C6: once the sample tool [f], which returns [x + 1], is registered,
    dispatching ["f"] with [x = 5] returns exactly the string ["6"]; and
    whenever a registered tool returns normally, [dispatch_tool] returns the
    string of the value returned, as [str] gives it. *)
Theorem dispatch_tool_round_trip :
  (forall w, exists w',
      register_tool pformat Samples.f w = (Ok Samples.f, w')
      /\ dispatch_tool format_exc "f" [("x", VInt 5)] w' = (Ok "6", w'))
  /\ (forall w tool_name tool_params func v,
        dict_get tool_name (_TOOL_HOOKS w) = Some func ->
        py_call func tool_params = Ok v ->
        dispatch_tool format_exc tool_name tool_params w = (py_str v, w)).
Proof.
  split.
  - intros w. eexists. split; [by apply register_tool_describe|].
    rewrite dispatch_tool_unfold, install_hooks. simpl td_name.
    by rewrite dict_get_set_eq.
  - intros w tool_name tool_params func v Hf Hv.
    by rewrite dispatch_tool_unfold, Hf, Hv.
Qed.

(** What one call does to the two mappings: a successful registration sets
    the same name in both, every other call leaves both as they were. *)
Lemma step_mappings c w :
  (exists func x,
      _TOOL_HOOKS (step format_exc pformat c w) = dict_set (fn_name func) func (_TOOL_HOOKS w)
      /\ _TOOL_DESCRIPTIONS (step format_exc pformat c w)
         = dict_set (fn_name func) x (_TOOL_DESCRIPTIONS w))
  \/ (_TOOL_HOOKS (step format_exc pformat c w) = _TOOL_HOOKS w
      /\ _TOOL_DESCRIPTIONS (step format_exc pformat c w) = _TOOL_DESCRIPTIONS w).
Proof.
  destruct c as [func|tool_name tool_params|]; simpl.
  - destruct (describe func) as [td|e] eqn:Hd.
    + left. rewrite (register_tool_describe _ _ _ w Hd). simpl.
      assert (td_name td = fn_name func) as ->.
      { unfold describe in Hd. destruct (getdoc_strip _); [|done].
        destruct (param_specs _); by simplify_eq. }
      by eexists _, _.
    + right. by destruct (register_tool_raises pformat _ _ w Hd) as [h' ->].
  - right. by rewrite (dispatch_tool_frame format_exc w tool_name tool_params).
  - right. destruct (get_tools w) as [r w'] eqn:Hg.
    by destruct (get_tools_frame _ _ _ Hg) as (? & ? & _).
Qed.

Lemma step_lockstep c w : lockstep w -> lockstep (step format_exc pformat c w).
Proof.
  unfold lockstep. intros Hl.
  destruct (step_mappings c w) as [(func & x & -> & ->)|[-> ->]]; [|done].
  by apply dict_keys_set_lockstep.
Qed.

Lemma run_lockstep calls w : lockstep w -> lockstep (run format_exc pformat calls w).
Proof.
  revert w. induction calls as [|c calls IH]; intros w Hl; [done|].
  simpl. apply IH. by apply step_lockstep.
Qed.

(** The catalog can be read in every state the module reaches. *)
Lemma step_catalog c w items :
  catalog w = Some (DDict items) ->
  exists items', catalog (step format_exc pformat c w) = Some (DDict items').
Proof.
  intros Hcat. destruct c as [func|tool_name tool_params|]; simpl.
  - destruct (describe func) as [td|e] eqn:Hd.
    + rewrite (register_tool_describe _ _ _ w Hd). simpl.
      eexists. by apply catalog_install.
    + destruct (register_tool_raises pformat _ _ w Hd) as [h' ->]. simpl.
      exists items. unfold catalog in *. simpl.
      eapply read_obj_extends; [apply extends_app|done].
  - rewrite (dispatch_tool_frame format_exc w tool_name tool_params). by eexists.
  - destruct (get_tools_spec w _ Hcat) as (h' & -> & Hp & _). simpl.
    exists items. unfold catalog in *. simpl.
    eapply read_obj_extends; [by apply extends_prefix|done].
Qed.

Lemma run_catalog calls :
  exists items, catalog (run format_exc pformat calls world0) = Some (DDict items).
Proof.
  assert (forall w items, catalog w = Some (DDict items) ->
          exists items', catalog (run format_exc pformat calls w) = Some (DDict items')) as H.
  { induction calls as [|c calls IH]; intros w items Hc; [by eexists|].
    simpl. destruct (step_catalog c w items Hc) as [items' Hc']. by eapply IH. }
  by apply (H world0 []).
Qed.

(** C10: in every state reached from the empty registry by calls of
    [register_tool], [dispatch_tool] and [get_tools], the two mappings hold
    the same names in the same order, so a name has an invocable exactly
    when it has a descriptor; a successful registration sets the callable's
    name in both mappings, a failed one and a dispatch change neither. *)
Theorem registry_lockstep :
  (forall calls,
      lockstep (run format_exc pformat calls world0)
      /\ forall name,
          is_Some (dict_get name (_TOOL_HOOKS (run format_exc pformat calls world0)))
          <-> is_Some (dict_get name (_TOOL_DESCRIPTIONS (run format_exc pformat calls world0))))
  /\ (forall func w r w',
        register_tool pformat func w = (Ok r, w') ->
        exists x, _TOOL_HOOKS w' = dict_set (fn_name func) func (_TOOL_HOOKS w)
                  /\ _TOOL_DESCRIPTIONS w' = dict_set (fn_name func) x (_TOOL_DESCRIPTIONS w))
  /\ (forall func w e w',
        register_tool pformat func w = (Raise e, w') ->
        _TOOL_HOOKS w' = _TOOL_HOOKS w /\ _TOOL_DESCRIPTIONS w' = _TOOL_DESCRIPTIONS w)
  /\ (forall tool_name tool_params w,
        (dispatch_tool format_exc tool_name tool_params w).2 = w).
Proof.
  split; [|split; [|split]].
  - intros calls. assert (lockstep (run format_exc pformat calls world0)) as Hl.
    { by apply run_lockstep. }
    split; [done|]. intros name. unfold lockstep in Hl.
    by rewrite !dict_get_keys, Hl.
  - intros func w r w' Hr.
    pose proof (step_mappings (CallRegister func) w) as Hs. simpl in Hs. rewrite Hr in Hs.
    destruct (register_tool_inv _ _ _ _ _ Hr) as (td & Hd & -> & ->).
    assert (td_name td = fn_name func) as Hn.
    { unfold describe in Hd. destruct (getdoc_strip _); [|done].
      destruct (param_specs _); by simplify_eq. }
    rewrite install_hooks, install_descriptions, Hn. by eexists.
  - intros func w e w' Hr. by destruct (register_tool_raise_frame _ _ _ _ _ Hr) as (? & ? & _).
  - intros tool_name tool_params w.
    by rewrite (dispatch_tool_frame format_exc w tool_name tool_params).
Qed.
End ModuleTheorems.

(** * The theorems at sample inputs *)

Lemma dispatch_tool_contains_failures_witness :
  dispatch_tool Samples.sample_format_exc "picky" [("x", VInt 1)] Samples.world_picky
  = (Ok (Samples.sample_format_exc (TypeError "x must be an integer")), Samples.world_picky)
  /\ (exists msg,
        dispatch_tool Samples.sample_format_exc "picky" [("y", VInt 1)] Samples.world_picky
        = (Ok (Samples.sample_format_exc (TypeError msg)), Samples.world_picky))
  /\ (exists msg,
        dispatch_tool Samples.sample_format_exc "picky" [] Samples.world_picky
        = (Ok (Samples.sample_format_exc (TypeError msg)), Samples.world_picky)).
Proof.
  destruct (dispatch_tool_contains_failures Samples.sample_format_exc Samples.world_picky
              "picky" [("x", VInt 1)] Samples.picky eq_refl) as (Hbody & _).
  destruct (dispatch_tool_contains_failures Samples.sample_format_exc Samples.world_picky
              "picky" [("y", VInt 1)] Samples.picky eq_refl) as (_ & _ & Hkeyword & _).
  destruct (dispatch_tool_contains_failures Samples.sample_format_exc Samples.world_picky
              "picky" [] Samples.picky eq_refl) as (_ & _ & _ & Hmissing & _).
  split; [exact (Hbody _ eq_refl eq_refl)|]. split; [exact (Hkeyword "y" eq_refl eq_refl)|].
  apply Hmissing. left. discriminate.
Defined.

Lemma dispatch_tool_not_found_witness :
  dispatch_tool Samples.sample_format_exc "nonexistent_tool" [] Samples.world_f
  = (Ok "Tool `nonexistent_tool` not found. Please use a provided tool.", Samples.world_f).
Proof.
  exact (dispatch_tool_not_found Samples.sample_format_exc Samples.world_f
           "nonexistent_tool" [] eq_refl).
Defined.

Lemma register_tool_rejection_witness :
  rejects Samples.sample_pformat Samples.bare world0 (MissingAnnotation "x")
  /\ rejects Samples.sample_pformat Samples.plain world0 (MalformedAnnotation "x")
  /\ rejects Samples.sample_pformat Samples.numbered world0 (InvalidDescription "x")
  /\ rejects Samples.sample_pformat Samples.flagged world0 (InvalidRequiredFlag "x")
  /\ exists msg, rejects Samples.sample_pformat Samples.two_part world0 (ValueError msg).
Proof.
  destruct (register_tool_rejection Samples.sample_pformat) as [_ H].
  split; [|split; [|split; [|split]]].
  - destruct (H Samples.bare world0 "No annotation" [] "x" (Samples.param Empty) []
                eq_refl eq_refl (List.Forall_nil _)) as (Ha & _).
    apply Ha. reflexivity.
  - destruct (H Samples.plain world0 "Not Annotated" [] "x" (Samples.param (Plain Samples.int_)) []
                eq_refl eq_refl (List.Forall_nil _)) as (_ & Ha & _).
    apply (Ha Samples.int_). reflexivity.
  - destruct (H Samples.numbered world0 "Description is a number" [] "x"
                (Samples.param (Annotated Samples.int_ [VInt 5; VBool true])) []
                eq_refl eq_refl (List.Forall_nil _)) as (_ & _ & _ & Ha & _).
    apply (Ha Samples.int_ "int" (VInt 5) (VBool true)); reflexivity.
  - destruct (H Samples.flagged world0 "Flag is a string" [] "x"
                (Samples.param (Annotated Samples.int_ [VStr "An integer"; VStr "yes"])) []
                eq_refl eq_refl (List.Forall_nil _)) as (_ & _ & _ & _ & Ha).
    apply (Ha Samples.int_ "int" (VStr "An integer") (VStr "yes")); reflexivity.
  - destruct (H Samples.two_part world0 "Two parts" [] "x"
                (Samples.param (Annotated Samples.int_ [VStr "An integer"])) []
                eq_refl eq_refl (List.Forall_nil _)) as (_ & _ & Ha & _).
    apply (Ha Samples.int_ [VStr "An integer"]); [reflexivity|]. simpl. lia.
Defined.

(** C2 fails as stated: an [Annotated] with one metadata item is refused
    with [ValueError], not [MalformedAnnotation]; a description that is not
    a string, on a type without [__name__], is refused with
    [AttributeError], not [InvalidDescription]; and a parameter without
    annotation, on a callable without documentation text, is refused with
    [AttributeError], not [MissingAnnotation]. *)
Lemma register_tool_rejection_counterexample :
  ((register_tool Samples.sample_pformat Samples.two_part world0).1
   = Raise (ValueError "not enough values to unpack (expected 2, got 1)")
   /\ ValueError "not enough values to unpack (expected 2, got 1)" <> MalformedAnnotation "x")
  /\ ((register_tool Samples.sample_pformat Samples.either world0).1
      = Raise (AttributeError "'types.UnionType' object has no attribute '__name__'")
      /\ AttributeError "'types.UnionType' object has no attribute '__name__'"
         <> InvalidDescription "x")
  /\ ((register_tool Samples.sample_pformat Samples.undocumented world0).1
      = Raise (AttributeError "'NoneType' object has no attribute 'strip'")
      /\ AttributeError "'NoneType' object has no attribute 'strip'" <> MissingAnnotation "x").
Proof. repeat split; try reflexivity; discriminate. Qed.

Lemma register_tool_descriptor_witness :
  exists l desc pss,
    dict_get "random_number_generator"
      (_TOOL_DESCRIPTIONS
         (register_tool Samples.sample_pformat
            (Samples.random_number_generator Samples.no_body) world0).2)
    = Some (Ref l)
    /\ read 3 (heap (register_tool Samples.sample_pformat
                       (Samples.random_number_generator Samples.no_body) world0).2) (Ref l)
       = Some (DDict [("name", DImm (VStr "random_number_generator"));
                      ("description", DImm (VStr desc));
                      ("params", DList (param_data <$> pss))])
    /\ length pss = 2.
Proof.
  destruct (register_tool_descriptor Samples.sample_pformat
              (Samples.random_number_generator Samples.no_body) world0
              (Samples.random_number_generator Samples.no_body)
              (register_tool Samples.sample_pformat
                 (Samples.random_number_generator Samples.no_body) world0).2 eq_refl)
    as (l & desc & pss & H1 & H2 & H3 & _).
  exists l, desc, pss. split; [exact H1|]. split; [exact H2|exact H3].
Defined.

Lemma register_tool_description_witness :
  (exists w', register_tool Samples.sample_pformat Samples.f world0 = (Ok Samples.f, w'))
  /\ exists msg, rejects Samples.sample_pformat Samples.undocumented world0 (AttributeError msg).
Proof.
  destruct (register_tool_description Samples.sample_pformat Samples.f world0) as [Hsome _].
  destruct (register_tool_description Samples.sample_pformat Samples.undocumented world0)
    as [_ Hnone].
  split.
  - destruct (Hsome "Return x plus one" eq_refl) as (_ & _ & _ & _ & Hok).
    apply Hok. repeat constructor.
    exists Samples.int_, "An integer", true, "int". split; reflexivity.
  - apply Hnone. reflexivity.
Defined.

(** C5 fails as stated: a callable whose documentation text is blank is
    registered, with an empty description. *)
Lemma register_tool_description_counterexample :
  exists w',
    register_tool Samples.sample_pformat Samples.blank_doc world0 = (Ok Samples.blank_doc, w')
    /\ fn_doc Samples.blank_doc = Some "   "
    /\ PyStr.strip "   " = ""
    /\ dict_contains "blank_doc" (_TOOL_HOOKS w') = true
    /\ catalog w'
       = Some (DDict [("blank_doc", DDict [("name", DImm (VStr "blank_doc"));
                                           ("description", DImm (VStr ""));
                                           ("params", DList [])])]).
Proof.
  exists (register_tool Samples.sample_pformat Samples.blank_doc world0).2.
  repeat split; reflexivity.
Qed.

Lemma dispatch_tool_round_trip_witness :
  dispatch_tool Samples.sample_format_exc "f" [("x", VInt 5)] Samples.world_f
  = (Ok "6", Samples.world_f).
Proof.
  destruct (dispatch_tool_round_trip Samples.sample_format_exc Samples.sample_pformat)
    as [_ H].
  exact (H Samples.world_f "f" [("x", VInt 5)] Samples.f (VInt 6) eq_refl eq_refl).
Defined.

Lemma get_tools_snapshot_witness :
  catalog Samples.world_f = Some Samples.catalog_f
  /\ exists r w',
      get_tools Samples.world_f = (Ok r, w')
      /\ read 4 (heap w') r = Some Samples.catalog_f
      /\ (forall l, reach (heap w') r l -> length (heap Samples.world_f) <= l).
Proof.
  split; [reflexivity|].
  destruct (get_tools_snapshot Samples.world_f Samples.catalog_f eq_refl)
    as (r & w' & H1 & _ & _ & _ & H2 & _ & H3 & _).
  exists r, w'. split; [exact H1|]. split; [exact H2|exact H3].
Defined.

Lemma register_tool_last_wins_witness :
  exists w2,
    register_tool Samples.sample_pformat Samples.f' Samples.world_f_picky = (Ok Samples.f', w2)
    /\ dict_get "f" (_TOOL_HOOKS w2) = Some Samples.f'
    /\ dict_keys (_TOOL_HOOKS w2) = ["f"; "picky"]
    /\ dict_get "picky" (_TOOL_HOOKS w2) = Some Samples.picky.
Proof.
  destruct (register_tool_last_wins Samples.sample_pformat Samples.f Samples.f'
              Samples.world_f_picky (Ref 2) eq_refl eq_refl)
    as (w2 & l & td & H1 & H2 & _ & _ & _ & H3 & _ & H4).
  { exists world0, Samples.f', (register_tool Samples.sample_pformat Samples.f' world0).2.
    reflexivity. }
  exists w2. split; [exact H1|]. split; [exact H2|]. split; [exact H3|].
  destruct (H4 "picky") as [-> _]; [discriminate|reflexivity].
Defined.

Lemma get_tools_idempotent_witness :
  exists r1 w1 r2 w2,
    get_tools Samples.world_f = (Ok r1, w1)
    /\ get_tools (run Samples.sample_format_exc Samples.sample_pformat
                    [CallDispatch "f" [("x", VInt 5)]] w1) = (Ok r2, w2)
    /\ read 4 (heap w2) r1 = Some Samples.catalog_f
    /\ read 4 (heap w2) r2 = Some Samples.catalog_f.
Proof.
  destruct (get_tools_idempotent Samples.sample_format_exc Samples.sample_pformat
              Samples.world_f Samples.catalog_f [CallDispatch "f" [("x", VInt 5)]] eq_refl)
    as (r1 & w1 & r2 & w2 & H1 & H2 & _ & H3 & H4).
  { repeat constructor. intros func. discriminate. }
  exists r1, w1, r2, w2. split; [exact H1|]. split; [exact H2|]. split; [exact H3|exact H4].
Defined.

Lemma registry_lockstep_witness :
  lockstep (run Samples.sample_format_exc Samples.sample_pformat
              [CallRegister Samples.f; CallRegister Samples.bare;
               CallDispatch "f" [("x", VInt 5)]; CallGetTools; CallRegister Samples.f']
              world0).
Proof.
  destruct (registry_lockstep Samples.sample_format_exc Samples.sample_pformat) as [H _].
  destruct (H [CallRegister Samples.f; CallRegister Samples.bare;
               CallDispatch "f" [("x", VInt 5)]; CallGetTools; CallRegister Samples.f'])
    as [Hl _].
  exact Hl.
Defined.

(** ** The module's own tools *)

Example register_random_number_generator :
  catalog (register_tool Samples.sample_pformat
             (Samples.random_number_generator Samples.no_body) world0).2
  = Some (DDict [("random_number_generator",
                  DDict [("name", DImm (VStr "random_number_generator"));
                         ("description",
                          DImm (VStr "Generates a random number x, s.t. range[0] <= x < range[1]"));
                         ("params",
                          DList [DDict [("name", DImm (VStr "seed"));
                                        ("description",
                                         DImm (VStr "The random seed used by the generator"));
                                        ("type", DImm (VStr "int"));
                                        ("required", DImm (VBool true))];
                                 DDict [("name", DImm (VStr "range"));
                                        ("description",
                                         DImm (VStr "The range of the generated numbers"));
                                        ("type", DImm (VStr "tuple[int, int]"));
                                        ("required", DImm (VBool true))]])])]).
Proof. reflexivity. Qed.

Example py_str_int : py_str (VInt 6) = Ok "6".
Proof. reflexivity. Qed.

Example py_str_nested :
  py_str (VList [VInt (-3); VStr "a'b"; VTuple [VBool true]; VDict [("k", VNone)]])
  = Ok ("[-3, " +:+ String PyStr.dquote "a'b" +:+ String PyStr.dquote ", (True,), {'k': None}]").
Proof. reflexivity. Qed.

Example strip_example :
  PyStr.strip (String (ascii_of_nat 10) "    Get the weather  " +:+ String (ascii_of_nat 10) "    ")
  = "Get the weather".
Proof. reflexivity. Qed.

Example dispatch_unexpected_keyword :
  (dispatch_tool Samples.sample_format_exc "f" [("y", VInt 5)] Samples.world_f).1
  = Ok (Samples.sample_format_exc (TypeError "f() got an unexpected keyword argument 'y'")).
Proof. reflexivity. Qed.

Example dispatch_missing_argument :
  (dispatch_tool Samples.sample_format_exc "f" [] Samples.world_f).1
  = Ok (Samples.sample_format_exc (TypeError "f() missing 1 required positional argument: 'x'")).
Proof. reflexivity. Qed.

(** A tool with a [**kwargs] parameter takes every keyword. *)
Example dispatch_var_keyword :
  (dispatch_tool Samples.sample_format_exc "collect" [("a", VInt 1); ("b", VStr "two")]
     Samples.world_moody).1
  = Ok "2".
Proof. reflexivity. Qed.

(** * Further properties of registration *)

Lemma describe_name func td : describe func = Ok td -> td_name td = fn_name func.
Proof.
  unfold describe. destruct (getdoc_strip _); [|done].
  destruct (param_specs _); intros ?; by simplify_eq.
Qed.

Lemma param_specs_inv_well params pss :
  param_specs params = Ok pss -> Forall (fun p => well_annotated p.2) params.
Proof.
  intros Hs. apply param_specs_inv in Hs.
  induction Hs as [|ps p pss params (_ & typ & Ha & Ht) _ IH]; constructor; [|done].
  by eexists _, _, _, _.
Qed.

Section RegistrationExtras.
Variable format_exc : PyExc -> string.
Variable pformat : list (option Obj) -> Slot -> string.

(** X1: registration succeeds exactly for a callable that has documentation
    text and whose parameters are all [Annotated] with a string and a
    boolean over a type that renders; the state plays no part. *)
Theorem register_tool_succeeds_iff func w :
  (exists r w', register_tool pformat func w = (Ok r, w'))
  <-> (is_Some (fn_doc func) /\ Forall (fun p => well_annotated p.2) (fn_params func)).
Proof.
  split.
  - intros (r & w' & Hr). destruct (register_tool_inv _ _ _ _ _ Hr) as (td & Hd & _).
    unfold describe in Hd. destruct (fn_doc func) as [doc|]; [|done]. simpl in Hd.
    destruct (param_specs (fn_params func)) as [pss|] eqn:Hpss; [|done].
    split; [by eexists|]. by eapply param_specs_inv_well.
  - intros [[doc Hdoc] Hw]. destruct (param_specs_well _ Hw) as [pss Hpss].
    eexists _, _. apply register_tool_describe. unfold describe. by rewrite Hdoc, Hpss.
Qed.

(** X2: a successful registration returns the callable it was given and
    calls [print] once, with the prefix ["[registered tool] "] followed by
    what [pformat] gives for the descriptor it stored, a text that may
    span several lines; a failed registration prints nothing. *)
Theorem register_tool_output :
  (forall func w r w',
      register_tool pformat func w = (Ok r, w') ->
      r = func
      /\ exists l,
          dict_get (fn_name func) (_TOOL_DESCRIPTIONS w') = Some (Ref l)
          /\ stdout w' = stdout w ++ ["[registered tool] " +:+ pformat (heap w') (Ref l)])
  /\ (forall func w e w',
        register_tool pformat func w = (Raise e, w') -> stdout w' = stdout w).
Proof.
  split.
  - intros func w r w' Hr. destruct (register_tool_inv _ _ _ _ _ Hr) as (td & Hd & -> & ->).
    split; [done|]. eexists. split; [|done].
    rewrite install_descriptions, (describe_name _ _ Hd). apply dict_get_set_eq.
  - intros func w e w' Hr. by destruct (register_tool_raise_frame _ _ _ _ _ Hr) as (_ & _ & ? & _).
Qed.

Lemma dict_keys_set_prefix {V : Type} k (v : V) d :
  dict_keys d `prefix_of` dict_keys (dict_set k v d).
Proof.
  rewrite dict_keys_set. destruct (dict_contains k d); [done|]. by apply prefix_app_r.
Qed.

Lemma dict_keys_set_new {V : Type} k (v : V) d :
  dict_get k d = None -> dict_keys (dict_set k v d) = dict_keys d ++ [k].
Proof. intros Hk. rewrite dict_keys_set. unfold dict_contains. by rewrite Hk. Qed.

(** X3: registration keeps the registered names and their order: a name that is
    new goes last in both mappings, a name that is present keeps its
    place. *)
Theorem register_tool_order func w r w' :
  register_tool pformat func w = (Ok r, w') ->
  dict_keys (_TOOL_HOOKS w) `prefix_of` dict_keys (_TOOL_HOOKS w')
  /\ dict_keys (_TOOL_DESCRIPTIONS w) `prefix_of` dict_keys (_TOOL_DESCRIPTIONS w')
  /\ (dict_get (fn_name func) (_TOOL_HOOKS w) = None ->
      dict_keys (_TOOL_HOOKS w') = dict_keys (_TOOL_HOOKS w) ++ [fn_name func])
  /\ (dict_get (fn_name func) (_TOOL_DESCRIPTIONS w) = None ->
      dict_keys (_TOOL_DESCRIPTIONS w') = dict_keys (_TOOL_DESCRIPTIONS w) ++ [fn_name func])
  /\ (is_Some (dict_get (fn_name func) (_TOOL_HOOKS w)) ->
      dict_keys (_TOOL_HOOKS w') = dict_keys (_TOOL_HOOKS w)).
Proof.
  intros Hr. destruct (register_tool_inv _ _ _ _ _ Hr) as (td & Hd & -> & ->).
  rewrite install_hooks, install_descriptions, (describe_name _ _ Hd).
  split; [apply dict_keys_set_prefix|]. split; [apply dict_keys_set_prefix|].
  split; [apply dict_keys_set_new|]. split; [apply dict_keys_set_new|].
  intros Hk. rewrite dict_keys_set.
  by apply dict_contains_get in Hk as ->.
Qed.

(** X4: registration changes the catalog at the callable's name only: the entry
    there becomes the callable's descriptor and every other tool's data is
    as before; a failed registration leaves the whole catalog as it was. *)
Theorem register_tool_catalog func w items :
  catalog w = Some (DDict items) ->
  (forall r w',
      register_tool pformat func w = (Ok r, w') ->
      exists td,
        describe func = Ok td
        /\ catalog w' = Some (DDict (dict_set (fn_name func) (descriptor_data td) items))
        /\ forall k, k <> fn_name func ->
            dict_get k (dict_set (fn_name func) (descriptor_data td) items) = dict_get k items)
  /\ (forall e w',
        register_tool pformat func w = (Raise e, w') -> catalog w' = Some (DDict items)).
Proof.
  intros Hcat. split.
  - intros r w' Hr. destruct (register_tool_inv _ _ _ _ _ Hr) as (td & Hd & -> & ->).
    exists td. split; [done|]. split.
    + rewrite <- (describe_name _ _ Hd). by apply catalog_install.
    + intros k Hk. by apply dict_get_set_ne.
  - intros e w' Hr.
    destruct (register_tool_raise_frame _ _ _ _ _ Hr) as (_ & Hdescs & _ & Hp).
    unfold catalog in *. rewrite Hdescs.
    eapply read_obj_extends; [by apply extends_prefix|done].
Qed.

(** X5: the callable that was registered is the one a dispatch under its name
    calls, with the arguments as given. *)
Theorem register_then_dispatch func w r w' tool_params :
  register_tool pformat func w = (Ok r, w') ->
  dispatch_tool format_exc (fn_name func) tool_params w'
  = (match py_call func tool_params with
     | Ok v => py_str v
     | Raise e => Ok (format_exc e)
     end, w').
Proof.
  intros Hr. destruct (register_tool_inv _ _ _ _ _ Hr) as (td & Hd & -> & ->).
  rewrite dispatch_tool_unfold, install_hooks, (describe_name _ _ Hd), dict_get_set_eq.
  by destruct (py_call func tool_params).
Qed.

(** X6: after a registration, the next snapshot holds the callable's descriptor
    under its name. *)
Theorem register_then_get_tools func w d r w' :
  catalog w = Some d ->
  register_tool pformat func w = (Ok r, w') ->
  exists td snapshot w'' items,
    describe func = Ok td
    /\ get_tools w' = (Ok snapshot, w'')
    /\ read 4 (heap w'') snapshot = Some (DDict items)
    /\ dict_get (fn_name func) items = Some (descriptor_data td).
Proof.
  intros Hcat Hr. destruct (catalog_dict _ _ Hcat) as [items ->].
  destruct (register_tool_inv _ _ _ _ _ Hr) as (td & Hd & -> & ->).
  pose proof (catalog_install pformat func td w items Hcat) as Hcat'.
  destruct (get_tools_spec _ _ Hcat') as (h' & Hget & _ & Hread & _).
  eexists td, _, _, _. split; [done|]. split; [exact Hget|]. split; [exact Hread|].
  rewrite <- (describe_name _ _ Hd). apply dict_get_set_eq.
Qed.

(** No call changes or removes an object of the heap, as long as the catalog
    can be read. *)
Lemma step_heap_prefix c w d :
  catalog w = Some d -> heap w `prefix_of` heap (step format_exc pformat c w).
Proof.
  intros Hcat. destruct c as [func|tool_name tool_params|]; simpl.
  - destruct (describe func) as [td|e] eqn:Hd.
    + rewrite (register_tool_describe _ _ _ w Hd). apply install_frame.
    + destruct (register_tool_raises pformat _ _ w Hd) as [h' ->]. simpl.
      by apply prefix_app_r.
  - by rewrite (dispatch_tool_frame format_exc w tool_name tool_params).
  - by destruct (get_tools_spec w d Hcat) as (h' & -> & Hp & _).
Qed.

Lemma run_heap_prefix calls : forall w items,
  catalog w = Some (DDict items) ->
  heap w `prefix_of` heap (run format_exc pformat calls w).
Proof.
  induction calls as [|c calls IH]; intros w items Hcat; [done|].
  simpl. destruct (step_catalog format_exc pformat c w items Hcat) as [items' Hcat'].
  etrans; [by eapply step_heap_prefix|]. by eapply IH.
Qed.

(** X7: A snapshot keeps reading as the data it was taken from, whatever calls
    follow: registrations, also under names it holds, dispatches and
    further snapshots. *)
Theorem snapshot_survives_calls w d snapshot w1 calls :
  catalog w = Some d ->
  get_tools w = (Ok snapshot, w1) ->
  read 4 (heap (run format_exc pformat calls w1)) snapshot = Some d.
Proof.
  intros Hcat Hget. destruct (get_tools_spec w d Hcat) as (h' & Hget' & Hp & Hread & _).
  rewrite Hget' in Hget. simplify_eq.
  destruct (catalog_dict _ _ Hcat) as [items ->].
  eapply read_extends; [|exact Hread]. apply extends_prefix.
  apply (run_heap_prefix calls (set_heap h' w) items).
  unfold catalog in *. simpl. eapply read_obj_extends; [by apply extends_prefix|done].
Qed.

(** X8: in every state the module reaches, [get_tools] returns a snapshot that
    reads as the catalog: it never runs out of depth and never raises. *)
Theorem get_tools_reachable calls :
  exists d snapshot w',
    catalog (run format_exc pformat calls world0) = Some d
    /\ get_tools (run format_exc pformat calls world0) = (Ok snapshot, w')
    /\ read 4 (heap w') snapshot = Some d.
Proof.
  destruct (run_catalog format_exc pformat calls) as [items Hcat].
  destruct (get_tools_spec _ _ Hcat) as (h' & Hget & _ & Hread & _).
  by eexists _, _, _.
Qed.

(** X9: in every state the module reaches, a further call leaves every object
    of the heap as it is and keeps the registered names and their order:
    nothing is changed in place, removed or reordered. *)
Theorem registry_append_only calls c :
  heap (run format_exc pformat calls world0)
    `prefix_of` heap (step format_exc pformat c (run format_exc pformat calls world0))
  /\ dict_keys (_TOOL_HOOKS (run format_exc pformat calls world0))
       `prefix_of` dict_keys (_TOOL_HOOKS (step format_exc pformat c
                                             (run format_exc pformat calls world0)))
  /\ dict_keys (_TOOL_DESCRIPTIONS (run format_exc pformat calls world0))
       `prefix_of` dict_keys (_TOOL_DESCRIPTIONS (step format_exc pformat c
                                                    (run format_exc pformat calls world0))).
Proof.
  destruct (run_catalog format_exc pformat calls) as [items Hcat].
  split; [by eapply step_heap_prefix|].
  destruct (step_mappings format_exc pformat c (run format_exc pformat calls world0))
    as [(func & x & -> & ->)|[-> ->]]; [|done].
  split; apply dict_keys_set_prefix.
Qed.
End RegistrationExtras.

(** * The tools *)

Lemma IM_Handbook_call key :
  py_call Tools.IM_Handbook [("key_word_name", key)]
  = Tools.IM_Handbook_body [("key_word_name", key)].
Proof. reflexivity. Qed.

Lemma IM_Handbook_body_cases key :
  Tools.IM_Handbook_body [("key_word_name", key)]
  = match key with
    | VStr k =>
        match dict_get k Tools.book with
        | Some text => Ok (VStr text)
        | None => Raise (TypeError "Key word name is not contained")
        end
    | _ => Raise (TypeError "Key word name must be a string")
    end.
Proof.
  unfold Tools.IM_Handbook_body. cbn [dict_get String.eqb Ascii.eqb Bool.eqb].
  destruct key; try reflexivity.
  cbn [isinstance_str negb Tools.in_book]. unfold dict_contains.
  by destruct (dict_get s Tools.book).
Qed.

Section ToolTheorems.
Variable format_exc : PyExc -> string.

(** X10: dispatching [IM_Handbook] returns the handbook's text for a key of the
    handbook, as it stands; for any other string, and for a key that is not
    a string, the caller gets the trace of the [TypeError] the tool raises. *)
Theorem handbook_dispatch w :
  dict_get "IM_Handbook" (_TOOL_HOOKS w) = Some Tools.IM_Handbook ->
  (forall k text,
      dict_get k Tools.book = Some text ->
      dispatch_tool format_exc "IM_Handbook" [("key_word_name", VStr k)] w = (Ok text, w))
  /\ (forall k,
        dict_get k Tools.book = None ->
        dispatch_tool format_exc "IM_Handbook" [("key_word_name", VStr k)] w
        = (Ok (format_exc (TypeError "Key word name is not contained")), w))
  /\ (forall key,
        isinstance_str key = false ->
        dispatch_tool format_exc "IM_Handbook" [("key_word_name", key)] w
        = (Ok (format_exc (TypeError "Key word name must be a string")), w)).
Proof.
  intros Hh. repeat split.
  - intros k text Hk.
    by rewrite dispatch_tool_unfold, Hh, IM_Handbook_call, IM_Handbook_body_cases, Hk.
  - intros k Hk.
    by rewrite dispatch_tool_unfold, Hh, IM_Handbook_call, IM_Handbook_body_cases, Hk.
  - intros key Hkey.
    rewrite dispatch_tool_unfold, Hh, IM_Handbook_call, IM_Handbook_body_cases.
    by destruct key.
Qed.

Lemma random_number_generator_call randint seed range kwargs :
  kwargs = [("seed", seed); ("range", range)] \/ kwargs = [("range", range); ("seed", seed)] ->
  py_call (Tools.random_number_generator randint) kwargs
  = Tools.random_number_generator_body randint [("seed", seed); ("range", range)].
Proof. by intros [-> | ->]. Qed.

(** X11: the checks of [random_number_generator], in the order the body makes
    them: the seed must be an [int]; the range must be a [tuple]; its first
    item, then its second, must exist and be an [int].  A tuple that is too
    short raises [IndexError], unless its one item is not an [int].  Only
    then is the generator called, with all the items of the tuple. *)
Theorem random_number_generator_checks randint seed range kwargs :
  kwargs = [("seed", seed); ("range", range)] \/ kwargs = [("range", range); ("seed", seed)] ->
  py_call (Tools.random_number_generator randint) kwargs
  = if negb (Tools.isinstance_int seed) then Raise (TypeError "Seed must be an integer")
    else
      match range with
      | VTuple [] => Raise (Tools.IndexError "tuple index out of range")
      | VTuple [r0] =>
          if Tools.isinstance_int r0
          then Raise (Tools.IndexError "tuple index out of range")
          else Raise (TypeError "Range must be a tuple of integers")
      | VTuple (r0 :: r1 :: rest) =>
          if Tools.isinstance_int r0 && Tools.isinstance_int r1
          then randint seed (r0 :: r1 :: rest)
          else Raise (TypeError "Range must be a tuple of integers")
      | _ => Raise (TypeError "Range must be a tuple")
      end.
Proof.
  intros Hk. rewrite (random_number_generator_call _ seed range) by done.
  unfold Tools.random_number_generator_body.
  cbn [dict_get String.eqb Ascii.eqb Bool.eqb].
  destruct (Tools.isinstance_int seed); [|done]. cbn [negb].
  destruct range as [| | | |items|items|items|]; try done.
  destruct items as [|r0 [|r1 rest]]; cbn.
  - done.
  - by destruct (Tools.isinstance_int r0).
  - destruct (Tools.isinstance_int r0); [|done]. by destruct (Tools.isinstance_int r1).
Qed.

(** X12: A range that is not a tuple, such as the list a decoded JSON argument
    gives, is always refused: the dispatch returns the trace of one of two
    [TypeError]s and the generator is not called. *)
Theorem random_number_generator_needs_tuple randint w seed range :
  dict_get "random_number_generator" (_TOOL_HOOKS w)
  = Some (Tools.random_number_generator randint) ->
  Tools.isinstance_tuple range = false ->
  dispatch_tool format_exc "random_number_generator" [("seed", seed); ("range", range)] w
  = (Ok (format_exc (TypeError (if Tools.isinstance_int seed
                                then "Range must be a tuple"
                                else "Seed must be an integer"))), w).
Proof.
  intros Hh Hr.
  rewrite dispatch_tool_unfold, Hh, (random_number_generator_call _ seed range) by (by left).
  unfold Tools.random_number_generator_body.
  cbn [dict_get String.eqb Ascii.eqb Bool.eqb].
  destruct (Tools.isinstance_int seed); [|done]. cbn [negb]. by rewrite Hr.
Qed.

Lemma get_weather_call requests key :
  py_call (Tools.get_weather requests format_exc) [("city_name", key)]
  = Tools.get_weather_body requests format_exc [("city_name", key)].
Proof. reflexivity. Qed.

Lemma get_weather_body_str requests city :
  Tools.get_weather_body requests format_exc [("city_name", VStr city)]
  = match requests with
    | Raise e => Raise e
    | Ok fetch =>
        result_map VStr
          (py_str match fetch ("https://wttr.in/" +:+ city +:+ "?format=j1") with
                  | Raise e => Tools.fetch_error format_exc e
                  | Ok resp =>
                      match Tools.select resp with
                      | Raise e => Tools.fetch_error format_exc e
                      | Ok d => VDict d
                      end
                  end)
    end.
Proof. reflexivity. Qed.

(** X13: [get_weather] refuses a city name that is not a string before it
    imports anything, and a failing import of [requests] makes it raise.
    For a string it asks one address, made of the name as it stands: when
    the request or the reading of the reply raises, it returns the error
    text followed by the trace; when a selection is read, its outcome is
    that of [str] on the selection, a conversion made after the [try]
    statement.  What it returns is always a string. *)
Theorem get_weather_contains_failures :
  (forall requests key,
      isinstance_str key = false ->
      py_call (Tools.get_weather requests format_exc) [("city_name", key)]
      = Raise (TypeError "City name must be a string"))
  /\ (forall e city,
        py_call (Tools.get_weather (Raise e) format_exc) [("city_name", VStr city)] = Raise e)
  /\ (forall fetch city e,
        fetch ("https://wttr.in/" +:+ city +:+ "?format=j1") = Raise e ->
        py_call (Tools.get_weather (Ok fetch) format_exc) [("city_name", VStr city)]
        = Ok (VStr ("Error encountered while fetching weather data!"
                    +:+ String (ascii_of_nat 10) "" +:+ format_exc e)))
  /\ (forall fetch city resp e,
        fetch ("https://wttr.in/" +:+ city +:+ "?format=j1") = Ok resp ->
        Tools.select resp = Raise e ->
        py_call (Tools.get_weather (Ok fetch) format_exc) [("city_name", VStr city)]
        = Ok (VStr ("Error encountered while fetching weather data!"
                    +:+ String (ascii_of_nat 10) "" +:+ format_exc e)))
  /\ (forall fetch city resp d,
        fetch ("https://wttr.in/" +:+ city +:+ "?format=j1") = Ok resp ->
        Tools.select resp = Ok d ->
        py_call (Tools.get_weather (Ok fetch) format_exc) [("city_name", VStr city)]
        = result_map VStr (py_repr (VDict d)))
  /\ (forall fetch fetch' city,
        fetch' ("https://wttr.in/" +:+ city +:+ "?format=j1")
        = fetch ("https://wttr.in/" +:+ city +:+ "?format=j1") ->
        py_call (Tools.get_weather (Ok fetch') format_exc) [("city_name", VStr city)]
        = py_call (Tools.get_weather (Ok fetch) format_exc) [("city_name", VStr city)])
  /\ (forall requests key v,
        py_call (Tools.get_weather requests format_exc) [("city_name", key)] = Ok v ->
        isinstance_str v = true).
Proof.
  split; [|split; [|split; [|split; [|split; [|split]]]]].
  - intros requests key Hkey. rewrite get_weather_call. by destruct key.
  - intros e city. by rewrite get_weather_call.
  - intros fetch city e He. by rewrite get_weather_call, get_weather_body_str, He.
  - intros fetch city resp e Hresp He.
    by rewrite get_weather_call, get_weather_body_str, Hresp, He.
  - intros fetch city resp d Hresp Hd.
    by rewrite get_weather_call, get_weather_body_str, Hresp, Hd.
  - intros fetch fetch' city Hf. by rewrite !get_weather_call, !get_weather_body_str, Hf.
  - intros requests key v. rewrite get_weather_call.
    destruct key; try done. rewrite get_weather_body_str.
    destruct requests as [fetch|e]; [|done].
    destruct (py_str _); [|done]. by intros [= <-].
Qed.

(** Whatever the network does, a dispatch of the registered [get_weather]
    returns a string. *)
Lemma get_weather_dispatch requests w city :
  dict_get "get_weather" (_TOOL_HOOKS w) = Some (Tools.get_weather requests format_exc) ->
  exists observation,
    dispatch_tool format_exc "get_weather" [("city_name", VStr city)] w = (Ok observation, w).
Proof.
  intros Hh. rewrite dispatch_tool_unfold, Hh, get_weather_call, get_weather_body_str.
  destruct requests as [fetch|e]; [|by eexists].
  destruct (py_str _); by eexists.
Qed.

(** X14: when the reply holds, under ["current_condition"], a sequence whose
    first item has the five fields, [get_weather] returns the text of a
    dictionary with these five fields, in the order of [key_selection],
    and nothing else of the reply; it raises what the rendering of one of
    the five values raises. *)
Theorem get_weather_selection fetch city resp cond first v1 v2 v3 v4 v5 :
  fetch ("https://wttr.in/" +:+ city +:+ "?format=j1") = Ok resp ->
  Tools.getitem_key resp "current_condition" = Ok cond ->
  Tools.getitem_index cond 0 = Ok first ->
  Tools.getitem_key first "temp_C" = Ok v1 ->
  Tools.getitem_key first "FeelsLikeC" = Ok v2 ->
  Tools.getitem_key first "humidity" = Ok v3 ->
  Tools.getitem_key first "weatherDesc" = Ok v4 ->
  Tools.getitem_key first "observation_time" = Ok v5 ->
  py_call (Tools.get_weather (Ok fetch) format_exc) [("city_name", VStr city)]
  = result_map VStr
      (py_repr (VDict [("current_condition",
                        VDict [("temp_C", v1); ("FeelsLikeC", v2); ("humidity", v3);
                               ("weatherDesc", v4); ("observation_time", v5)])])).
Proof.
  intros Hf Hc H0 H1 H2 H3 H4 H5. rewrite get_weather_call, get_weather_body_str, Hf.
  assert (Tools.select resp
          = Ok [("current_condition",
                 VDict [("temp_C", v1); ("FeelsLikeC", v2); ("humidity", v3);
                        ("weatherDesc", v4); ("observation_time", v5)])]) as ->; [|done].
  unfold Tools.select, Tools.select_fields, Tools.key_selection.
  cbn [fmap list_fmap fst Tools.dict_comprehension dict_get String.eqb Ascii.eqb Bool.eqb].
  rewrite Hc, H0, H1. cbn [Tools.dict_comprehension].
  rewrite H2. cbn [Tools.dict_comprehension].
  rewrite H3. cbn [Tools.dict_comprehension].
  rewrite H4. cbn [Tools.dict_comprehension].
  rewrite H5. reflexivity.
Qed.
End ToolTheorems.

(** * The text of a snapshot *)

Lemma map_results_Forall2 {A B C D : Type} (f : A -> Result C) (g : D -> Result C)
    (k : B -> D) xs ds :
  Forall2 (fun x d => f x = g (k d)) xs ds -> map_results f xs = map_results g (map k ds).
Proof.
  induction 1 as [|x d xs ds Hx _ IH]; [done|]. simpl. by rewrite Hx, IH.
Qed.

Lemma data_val_items ks ds :
  length ks = length ds ->
  (map (fun kd : string * Data => (kd.1, data_val kd.2)) (zip ks ds)).*1 = ks
  /\ (map (fun kd : string * Data => (kd.1, data_val kd.2)) (zip ks ds)).*2 = map data_val ds.
Proof.
  revert ds. induction ks as [|k ks IH]; intros [|d ds] Hl; try done.
  simpl in Hl. destruct (IH ds) as [IH1 IH2]; [lia|].
  split; simpl; by f_equal.
Qed.

(** On a structure that can be read, [repr] is that of the data read,
    whatever depth it is allowed. *)
Lemma slot_repr_read n : forall h x d busy m,
  read n h x = Some d ->
  (forall l, l ∈ busy -> ~ reach h x l) ->
  slot_repr m busy h x = py_repr_at m (data_val d).
Proof.
  induction n as [|n IH]; intros h [v|l] d busy m Hr Hbusy; try done.
  - simpl in Hr. simplify_eq. by destruct m.
  - simpl in Hr. simplify_eq. by destruct m.
  - pose proof Hr as Hr'.
    apply read_Ref_inv in Hr' as (k' & o & ds & [= <-] & Ho & Hds & ->).
    apply mapM_Some in Hds.
    assert (length (children o) = length ds) as Hlen by by eapply Forall2_length.
    assert (bool_decide (l ∈ busy) = false) as Hnot.
    { apply bool_decide_eq_false_2. intros Hin. apply (Hbusy l Hin). constructor. }
    destruct m as [|m].
    + cbn [slot_repr]. rewrite Ho, Hnot. by destruct o.
    + cbn [slot_repr]. rewrite Ho, Hnot.
      assert (map_results (slot_repr m (l :: busy) h) (children o)
              = map_results (py_repr_at m) (map data_val ds)) as ->.
      { apply map_results_Forall2.
        assert (forall x, x ∈ children o -> forall b, b ∈ l :: busy -> ~ reach h x b) as Hc.
        { intros x Hx b Hb Hreach. apply elem_of_cons in Hb as [->|Hb].
          - by eapply (read_no_cycle h l o x Ho Hx Hreach).
          - apply (Hbusy b Hb). by eapply reach_child. }
        clear Hr Hlen. revert Hds Hc. generalize (children o). intros xs Hds.
        induction Hds as [|x dx xs ds' Hx Hxs IHxs]; intros Hc; constructor.
        - apply IH; [done|]. intros b Hb. apply (Hc x); [by left|done].
        - apply IHxs. intros x' Hx'. apply Hc. by right. }
      destruct o as [kvs|xs]; cbn [assemble data_val py_repr_at children] in *.
      * rewrite length_fmap in Hlen. destruct (data_val_items kvs.*1 ds) as [-> ->]; [|done].
        by rewrite length_fmap.
      * done.
Qed.

Section ScriptTheorems.
Variable randint : PyVal -> list PyVal -> Result PyVal.
Variable requests : Result (string -> Result PyVal).
Variable format_exc : PyExc -> string.
Variable pformat : list (option Obj) -> Slot -> string.

(** X15: importing the module raises nothing: its three tools pass the
    registration checks, whatever their bodies do.  Afterwards the mappings
    hold the three tools in the order of their definitions, [print] has
    been called three times, once for each tool, and the catalog describes
    each parameter as declared, the range of [random_number_generator]
    with the type ["tuple[int, int]"]. *)
Theorem import_module_registers :
  exists w,
    import_module randint requests format_exc pformat world0 = (Ok tt, w)
    /\ _TOOL_HOOKS w
       = [("random_number_generator", Tools.random_number_generator randint);
          ("get_weather", Tools.get_weather requests format_exc);
          ("IM_Handbook", Tools.IM_Handbook)]
    /\ dict_keys (_TOOL_DESCRIPTIONS w) = ["random_number_generator"; "get_weather"; "IM_Handbook"]
    /\ length (stdout w) = 3
    /\ catalog w
       = Some (DDict
           [("random_number_generator",
             DDict [("name", DImm (VStr "random_number_generator"));
                    ("description",
                     DImm (VStr "Generates a random number x, s.t. range[0] <= x < range[1]"));
                    ("params",
                     DList [DDict [("name", DImm (VStr "seed"));
                                   ("description",
                                    DImm (VStr "The random seed used by the generator"));
                                   ("type", DImm (VStr "int"));
                                   ("required", DImm (VBool true))];
                            DDict [("name", DImm (VStr "range"));
                                   ("description",
                                    DImm (VStr "The range of the generated numbers"));
                                   ("type", DImm (VStr "tuple[int, int]"));
                                   ("required", DImm (VBool true))]])]);
            ("get_weather",
             DDict [("name", DImm (VStr "get_weather"));
                    ("description", DImm (VStr "Get the current weather for `city_name`"));
                    ("params",
                     DList [DDict [("name", DImm (VStr "city_name"));
                                   ("description",
                                    DImm (VStr "The name of the city to be queried"));
                                   ("type", DImm (VStr "str"));
                                   ("required", DImm (VBool true))]])]);
            ("IM_Handbook",
             DDict [("name", DImm (VStr "IM_Handbook"));
                    ("description", DImm (VStr "Get the explain for `key_word_name`"));
                    ("params",
                     DList [DDict [("name", DImm (VStr "key_word_name"));
                                   ("description", DImm (VStr "The name of the Knowledge"));
                                   ("type", DImm (VStr "str"));
                                   ("required", DImm (VBool true))]])])]).
Proof.
  pose proof (eq_refl : describe (Tools.random_number_generator randint)
                        = Ok (mkToolDescriptor "random_number_generator"
                                "Generates a random number x, s.t. range[0] <= x < range[1]"
                                [mkParamSpec "seed" "The random seed used by the generator"
                                             "int" true;
                                 mkParamSpec "range" "The range of the generated numbers"
                                             "tuple[int, int]" true])) as H1.
  pose proof (eq_refl : describe (Tools.get_weather requests format_exc)
                        = Ok (mkToolDescriptor "get_weather"
                                "Get the current weather for `city_name`"
                                [mkParamSpec "city_name" "The name of the city to be queried"
                                             "str" true])) as H2.
  pose proof (eq_refl : describe Tools.IM_Handbook
                        = Ok (mkToolDescriptor "IM_Handbook"
                                "Get the explain for `key_word_name`"
                                [mkParamSpec "key_word_name" "The name of the Knowledge"
                                             "str" true])) as H3.
  eexists. split.
  { unfold import_module. unfold bind at 1.
    rewrite (register_tool_describe pformat _ _ world0 H1).
    unfold bind at 1. rewrite (register_tool_describe pformat _ _ _ H2).
    unfold bind at 1. rewrite (register_tool_describe pformat _ _ _ H3).
    reflexivity. }
  split; [reflexivity|]. split; [reflexivity|]. split; [reflexivity|].
  rewrite (catalog_install pformat _ _ _ _
             (catalog_install pformat _ _ _ _
                (catalog_install pformat _ _ _ _ catalog_world0))).
  reflexivity.
Qed.

(** X16: run as a script in a state that holds the module's [get_weather]
    and whose catalog reads as [d], the module first calls [print] with
    what the dispatch of [get_weather] for ["beijing"] returns, which is
    always a string and may span several lines.  It then calls [print]
    with the text of the snapshot, which is the text of [d], and ends; if
    rendering [d] raises, the exception ends the script after the first
    [print].  Both mappings are left as they were. *)
Theorem main_prints w d :
  dict_get "get_weather" (_TOOL_HOOKS w) = Some (Tools.get_weather requests format_exc) ->
  catalog w = Some d ->
  exists observation w',
    dispatch_tool format_exc "get_weather" [("city_name", VStr "beijing")] w
    = (Ok observation, w)
    /\ main format_exc w = (result_map (fun _ => tt) (py_repr (data_val d)), w')
    /\ stdout w'
       = stdout w ++ observation :: match py_repr (data_val d) with
                                    | Ok text => [text]
                                    | Raise _ => []
                                    end
    /\ _TOOL_HOOKS w' = _TOOL_HOOKS w
    /\ _TOOL_DESCRIPTIONS w' = _TOOL_DESCRIPTIONS w.
Proof.
  intros Hh Hcat.
  destruct (get_weather_dispatch format_exc requests w "beijing" Hh) as [observation Hobs].
  set (w1 := mkWorld (heap w) (_TOOL_HOOKS w) (_TOOL_DESCRIPTIONS w) (stdout w ++ [observation])).
  assert (catalog w1 = Some d) as Hcat1 by done.
  destruct (get_tools_spec w1 d Hcat1) as (h' & Hget & Hp & Hread & Hnew).
  assert (slot_repr recursion_limit [] h' (Ref (length (heap w1))) = py_repr (data_val d))
    as Hrepr.
  { apply (slot_repr_read 4); [done|]. intros l Hl. by apply elem_of_nil in Hl. }
  exists observation.
  assert (main format_exc w
          = match py_repr (data_val d) with
            | Ok text =>
                (Ok tt, mkWorld h' (_TOOL_HOOKS w) (_TOOL_DESCRIPTIONS w)
                                (stdout w ++ [observation; text]))
            | Raise e => (Raise e, set_heap h' w1)
            end) as ->.
  { unfold main. unfold bind at 1. rewrite Hobs.
    unfold bind at 1. unfold print at 1. fold w1.
    unfold bind at 1. rewrite Hget.
    unfold bind at 1. unfold slot_str at 1. cbn [heap set_heap]. rewrite Hrepr.
    destruct (py_repr (data_val d)); [|done].
    unfold print. cbn [stdout set_heap heap _TOOL_HOOKS _TOOL_DESCRIPTIONS]. subst w1.
    cbn [stdout heap _TOOL_HOOKS _TOOL_DESCRIPTIONS]. by rewrite <- app_assoc. }
  destruct (py_repr (data_val d)); eexists; (split; [exact Hobs|]); (split; [done|]); done.
Qed.
End ScriptTheorems.

(** * The further theorems at sample inputs *)

Lemma register_tool_output_witness :
  exists l,
    dict_get "f" (_TOOL_DESCRIPTIONS Samples.world_f) = Some (Ref l)
    /\ stdout Samples.world_f
       = ["[registered tool] " +:+ Samples.sample_pformat (heap Samples.world_f) (Ref l)].
Proof.
  destruct (register_tool_output Samples.sample_pformat) as [H _].
  destruct (H Samples.f world0 Samples.f Samples.world_f eq_refl) as (_ & l & H1 & H2).
  exists l. split; [exact H1|exact H2].
Defined.

Lemma register_tool_order_witness :
  dict_keys (_TOOL_HOOKS (register_tool Samples.sample_pformat Samples.picky Samples.world_f).2)
  = ["f"] ++ ["picky"].
Proof.
  destruct (register_tool_order Samples.sample_pformat Samples.picky Samples.world_f
              Samples.picky
              (register_tool Samples.sample_pformat Samples.picky Samples.world_f).2 eq_refl)
    as (_ & _ & H & _).
  exact (H eq_refl).
Defined.

Lemma register_tool_catalog_witness :
  exists td,
    describe Samples.picky = Ok td
    /\ catalog (register_tool Samples.sample_pformat Samples.picky Samples.world_f).2
       = Some (DDict (dict_set "picky" (descriptor_data td)
                        [("f", DDict [("name", DImm (VStr "f"));
                                      ("description", DImm (VStr "Return x plus one"));
                                      ("params",
                                       DList [DDict [("name", DImm (VStr "x"));
                                                     ("description", DImm (VStr "An integer"));
                                                     ("type", DImm (VStr "int"));
                                                     ("required", DImm (VBool true))]])])])).
Proof.
  destruct (register_tool_catalog Samples.sample_pformat Samples.picky Samples.world_f _
              (eq_refl : catalog Samples.world_f = Some Samples.catalog_f)) as [H _].
  destruct (H Samples.picky
              (register_tool Samples.sample_pformat Samples.picky Samples.world_f).2 eq_refl)
    as (td & H1 & H2 & _).
  exists td. split; [exact H1|exact H2].
Defined.

Lemma register_then_dispatch_witness :
  dispatch_tool Samples.sample_format_exc "f" [("x", VInt 41)] Samples.world_f
  = (Ok "42", Samples.world_f).
Proof.
  exact (register_then_dispatch Samples.sample_format_exc Samples.sample_pformat
           Samples.f world0 Samples.f Samples.world_f [("x", VInt 41)] eq_refl).
Defined.

Lemma register_then_get_tools_witness :
  exists td snapshot w'' items,
    describe Samples.f = Ok td
    /\ get_tools Samples.world_f = (Ok snapshot, w'')
    /\ read 4 (heap w'') snapshot = Some (DDict items)
    /\ dict_get "f" items = Some (descriptor_data td).
Proof.
  exact (register_then_get_tools Samples.sample_pformat Samples.f world0 (DDict [])
           Samples.f Samples.world_f eq_refl eq_refl).
Defined.

Lemma snapshot_survives_calls_witness :
  read 4 (heap (run Samples.sample_format_exc Samples.sample_pformat
                  [CallRegister Samples.f'; CallGetTools; CallRegister Samples.bare]
                  (get_tools Samples.world_f).2))
       (Ref (length (heap Samples.world_f)))
  = Some Samples.catalog_f.
Proof.
  exact (snapshot_survives_calls Samples.sample_format_exc Samples.sample_pformat
           Samples.world_f Samples.catalog_f (Ref (length (heap Samples.world_f)))
           (get_tools Samples.world_f).2
           [CallRegister Samples.f'; CallGetTools; CallRegister Samples.bare]
           eq_refl eq_refl).
Defined.

Lemma handbook_dispatch_witness :
  dispatch_tool Samples.sample_format_exc "IM_Handbook" [("key_word_name", VStr "MOM")]
                ToolSamples.world_tools
  = (Ok "Manufacturing Operation Management，制造运营管理：制造运营管理系统平台",
     ToolSamples.world_tools)
  /\ dispatch_tool Samples.sample_format_exc "IM_Handbook" [("key_word_name", VStr "ERP")]
                   ToolSamples.world_tools
     = (Ok (Samples.sample_format_exc (TypeError "Key word name is not contained")),
        ToolSamples.world_tools).
Proof.
  destruct (handbook_dispatch Samples.sample_format_exc ToolSamples.world_tools eq_refl)
    as (Hin & Hout & _).
  split.
  - apply (Hin "MOM"). reflexivity.
  - apply (Hout "ERP"). reflexivity.
Defined.

Lemma random_number_generator_checks_witness :
  py_call (Tools.random_number_generator ToolSamples.sample_randint)
          [("range", VTuple [VInt 3; VInt 9]); ("seed", VInt 7)]
  = Ok (VInt 3)
  /\ py_call (Tools.random_number_generator ToolSamples.sample_randint)
             [("seed", VInt 7); ("range", VTuple [VStr "a"])]
     = Raise (TypeError "Range must be a tuple of integers")
  /\ py_call (Tools.random_number_generator ToolSamples.sample_randint)
             [("seed", VInt 7); ("range", VTuple [VInt 3])]
     = Raise (Tools.IndexError "tuple index out of range").
Proof.
  split; [|split].
  - exact (random_number_generator_checks ToolSamples.sample_randint (VInt 7)
             (VTuple [VInt 3; VInt 9]) _ (or_intror eq_refl)).
  - exact (random_number_generator_checks ToolSamples.sample_randint (VInt 7)
             (VTuple [VStr "a"]) _ (or_introl eq_refl)).
  - exact (random_number_generator_checks ToolSamples.sample_randint (VInt 7)
             (VTuple [VInt 3]) _ (or_introl eq_refl)).
Defined.

Lemma random_number_generator_needs_tuple_witness :
  dispatch_tool Samples.sample_format_exc "random_number_generator"
                [("seed", VInt 7); ("range", VList [VInt 3; VInt 9])] ToolSamples.world_tools
  = (Ok (Samples.sample_format_exc (TypeError "Range must be a tuple")),
     ToolSamples.world_tools).
Proof.
  exact (random_number_generator_needs_tuple Samples.sample_format_exc
           ToolSamples.sample_randint ToolSamples.world_tools (VInt 7)
           (VList [VInt 3; VInt 9]) eq_refl eq_refl).
Defined.

Lemma get_weather_contains_failures_witness :
  py_call (Tools.get_weather (Ok ToolSamples.sample_offline) Samples.sample_format_exc)
          [("city_name", VStr "beijing")]
  = Ok (VStr ("Error encountered while fetching weather data!"
              +:+ String (ascii_of_nat 10) ""
              +:+ Samples.sample_format_exc (mkExc "ConnectionError" "Max retries exceeded"))).
Proof.
  destruct (get_weather_contains_failures Samples.sample_format_exc) as (_ & _ & H & _).
  exact (H ToolSamples.sample_offline "beijing" _ eq_refl).
Defined.

Lemma get_weather_selection_witness :
  py_call (Tools.get_weather (Ok ToolSamples.sample_fetch) Samples.sample_format_exc)
          [("city_name", VStr "beijing")]
  = Ok (VStr ("{'current_condition': {'temp_C': '20', 'FeelsLikeC': '19', 'humidity': '40', "
              +:+ "'weatherDesc': [{'value': 'Sunny'}], 'observation_time': '09:00 AM'}}")).
Proof.
  exact (get_weather_selection Samples.sample_format_exc ToolSamples.sample_fetch "beijing"
           ToolSamples.sample_reply (VList [ToolSamples.sample_condition])
           ToolSamples.sample_condition _ _ _ _ _
           eq_refl eq_refl eq_refl eq_refl eq_refl eq_refl eq_refl eq_refl).
Defined.

Lemma main_prints_witness :
  exists observation w',
    dispatch_tool Samples.sample_format_exc "get_weather" [("city_name", VStr "beijing")]
                  ToolSamples.world_tools
    = (Ok observation, ToolSamples.world_tools)
    /\ main Samples.sample_format_exc ToolSamples.world_tools = (Ok tt, w')
    /\ length (stdout w') = 5.
Proof.
  destruct (main_prints (Ok ToolSamples.sample_fetch) Samples.sample_format_exc
              ToolSamples.world_tools _ eq_refl
              (eq_refl : catalog ToolSamples.world_tools
                         = Some (from_option id (DDict []) (catalog ToolSamples.world_tools))))
    as (observation & w' & H1 & H2 & H3 & _).
  exists observation, w'. split; [exact H1|]. split; [exact H2|].
  rewrite H3, length_app. reflexivity.
Defined.

Example main_output :
  stdout (main Samples.sample_format_exc ToolSamples.world_tools).2
  = stdout ToolSamples.world_tools
    ++ ["{'current_condition': {'temp_C': '20', 'FeelsLikeC': '19', 'humidity': '40', "
        +:+ "'weatherDesc': [{'value': 'Sunny'}], 'observation_time': '09:00 AM'}}";
        "{'random_number_generator': {'name': 'random_number_generator', 'description': "
        +:+ "'Generates a random number x, s.t. range[0] <= x < range[1]', 'params': "
        +:+ "[{'name': 'seed', 'description': 'The random seed used by the generator', "
        +:+ "'type': 'int', 'required': True}, {'name': 'range', 'description': "
        +:+ "'The range of the generated numbers', 'type': 'tuple[int, int]', "
        +:+ "'required': True}]}, 'get_weather': {'name': 'get_weather', 'description': "
        +:+ "'Get the current weather for `city_name`', 'params': [{'name': 'city_name', "
        +:+ "'description': 'The name of the city to be queried', 'type': 'str', "
        +:+ "'required': True}]}, 'IM_Handbook': {'name': 'IM_Handbook', 'description': "
        +:+ "'Get the explain for `key_word_name`', 'params': [{'name': 'key_word_name', "
        +:+ "'description': 'The name of the Knowledge', 'type': 'str', 'required': True}]}}"].
Proof. vm_compute. reflexivity. Qed.
